(** * MarriageBot: the database wrapper and the Redis relay

    A shallow embedding of [cogs/utils/database.py] (class
    [DatabaseConnection]) and [cogs/redis_handler.py] (class [RedisHandler]),
    with the properties of the transactional wrapper and of the channel
    receive loop.

    Python code runs in a state-and-exception monad: a computation takes the
    state of the objects it can reach and gives back either a returned value
    or a raised exception, together with the state it left behind.  A raised
    exception keeps every mutation done before it, as in Python. *)

From Stdlib Require Import ZArith String Ascii List Bool Lia.
From stdpp Require Import base option list strings gmap.
Import ListNotations.
Local Open Scope string_scope.
Local Open Scope Z_scope.

(** ** Python values and exceptions *)

(** The scalar values that occur as configuration entries and as SQL
    arguments. *)
Inductive pyval : Type :=
| PyNone
| PyBool (b : bool)
| PyInt (z : Z)
| PyStr (s : string)
| PyDatetime (t : Z).

(** What a PostgreSQL statement can fail with ([asyncpg.PostgresError] and its
    subclasses, all of them subclasses of [Exception]). *)
Inductive pg_error : Type :=
| UniqueViolationError
| PostgresSyntaxError
| DataError
| ConnectionDoesNotExistError.

(** The exceptions of the two modules.  [SystemExit] is the only one that does
    not derive from [Exception]. *)
Inductive exn : Type :=
| KeyError (key : string)
| ValueError (msg : string)
| AttributeError (msg : string)
| InterfaceError (msg : string)
| PostgresError (e : pg_error)
| JSONDecodeError (doc : string)
| RuntimeError (msg : string)
| SystemExit (code : Z).

Definition is_Exception (e : exn) : bool :=
  match e with
  | SystemExit _ => false
  | _ => true
  end.

(** [x is False]: identity with the [False] singleton, not falsiness. *)
Definition is_False (v : pyval) : bool :=
  match v with
  | PyBool false => true
  | _ => false
  end.

(** ** The monad of Python computations *)

Inductive outcome (A : Type) : Type :=
| Return (a : A)
| Raise (e : exn).
Arguments Return {A} a.
Arguments Raise {A} e.

Definition M (S A : Type) : Type := S -> outcome A * S.

Definition ret {S A : Type} (a : A) : M S A := fun s => (Return a, s).

Definition raise {S A : Type} (e : exn) : M S A := fun s => (Raise e, s).

Definition bind {S A B : Type} (m : M S A) (k : A -> M S B) : M S B :=
  fun s =>
    match m s with
    | (Return a, s') => k a s'
    | (Raise e, s') => (Raise e, s')
    end.

Definition get {S : Type} : M S S := fun s => (Return s, s).

Definition modify {S : Type} (f : S -> S) : M S unit := fun s => (Return tt, f s).

(** [try: body  except Exception as e: handler e]. An exception that is not an
    [Exception] passes through. *)
Definition try_except {S A : Type} (body : M S A) (handler : exn -> M S A) : M S A :=
  fun s =>
    match body s with
    | (Return a, s') => (Return a, s')
    | (Raise e, s') => if is_Exception e then handler e s' else (Raise e, s')
    end.

(** The computations use stdpp's monad notations: [x ← m; k] and [m ;; k]. *)
#[global] Instance M_ret {S : Type} : MRet (M S) := fun A a => ret a.
#[global] Instance M_bind {S : Type} : MBind (M S) := fun A B k m => bind m k.

(** ** Strings *)

(** [str.casefold] on ASCII text: SQL statements are ASCII. *)
Definition casefold_ascii (c : ascii) : ascii :=
  let n := nat_of_ascii c in
  if (Nat.leb 65 n && Nat.leb n 90)%bool then ascii_of_nat (n + 32) else c.

Fixpoint casefold (s : string) : string :=
  match s with
  | EmptyString => EmptyString
  | String c rest => String (casefold_ascii c) (casefold rest)
  end.

(** [needle in hay] for strings. *)
Fixpoint contains (needle hay : string) : bool :=
  String.prefix needle hay ||
  match hay with
  | EmptyString => false
  | String _ rest => contains needle rest
  end.

(** ** The PostgreSQL session behind a connection

    [asyncpg] and the server are not part of the repository.  The reference
    model below is the session of one connection: the [marriages] table as the
    session sees it, the stack of open transactions (a nested transaction is a
    savepoint) each with the table it would restore, and the failures that the
    coming statements run into.  Readers on other connections see the table
    as it was when the outermost open transaction began. *)

Record Row : Type := mkRow {
  user_id : Z;
  partner_id : Z;
  guild_id : Z;
  timestamp : Z
}.

Record Session : Type := mkSession {
  table : list Row;
  xacts : list (nat * list Row);
  next_xact : nat;
  faults : list (option pg_error)
}.

Definition set_table (t : list Row) (s : Session) : Session :=
  mkSession t (xacts s) (next_xact s) (faults s).
Definition set_xacts (x : list (nat * list Row)) (s : Session) : Session :=
  mkSession (table s) x (next_xact s) (faults s).
Definition set_next_xact (n : nat) (s : Session) : Session :=
  mkSession (table s) (xacts s) n (faults s).
Definition set_faults (f : list (option pg_error)) (s : Session) : Session :=
  mkSession (table s) (xacts s) (next_xact s) f.

(** What every other connection reads. *)
Definition committed (s : Session) : list Row :=
  match last (xacts s) with
  | Some (_, snapshot) => snapshot
  | None => table s
  end.

Fixpoint strip_prefix (p s : string) : option string :=
  match p with
  | EmptyString => Some s
  | String a p' =>
      match s with
      | String b s' => if Ascii.eqb a b then strip_prefix p' s' else None
      | EmptyString => None
      end
  end.

(** [$1] .. [$9] as an index into the argument tuple. *)
Definition placeholder (c : ascii) : option nat :=
  let n := nat_of_ascii c in
  if (Nat.leb 49 n && Nat.leb n 57)%bool then Some (n - 49)%nat else None.

Definition parse_values (s : string) : option (nat * nat * nat * nat) :=
  match list_ascii_of_string s with
  | ["$"; a; ","; " "; "$"; b; ","; " "; "$"; c; ","; " "; "$"; d; ")"]%char =>
      match placeholder a, placeholder b, placeholder c, placeholder d with
      | Some i, Some j, Some k, Some l => Some (i, j, k, l)
      | _, _, _, _ => None
      end
  | _ => None
  end.

Definition insert_into_marriages : string :=
  "INSERT INTO marriages (user_id, partner_id, guild_id, timestamp) VALUES (".

Definition select_by_guild : string :=
  "SELECT * FROM marriages WHERE guild_id=$1".

Definition bind_row (args : list pyval) (cols : nat * nat * nat * nat) : option Row :=
  let '(i, j, k, l) := cols in
  match args !! i, args !! j, args !! k, args !! l with
  | Some (PyInt u), Some (PyInt p), Some (PyInt g), Some (PyDatetime t) =>
      Some (mkRow u p g t)
  | _, _, _, _ => None
  end.

(** The statements the server understands: the insert that [marry] sends, with
    its placeholders in any order, and a selection by guild.  The result is
    the rows given back and the new table. *)
Definition engine (sql : string) (args : list pyval) (t : list Row)
  : pg_error + (list Row * list Row) :=
  match strip_prefix insert_into_marriages sql with
  | Some values =>
      match parse_values values with
      | Some cols =>
          match bind_row args cols with
          | Some r => inr ([], (t ++ [r])%list)
          | None => inl DataError
          end
      | None => inl PostgresSyntaxError
      end
  | None =>
      if String.eqb sql select_by_guild then
        match args with
        | [PyInt g] => inr (List.filter (fun r => Z.eqb (guild_id r) g) t, t)
        | _ => inl DataError
        end
      else inl PostgresSyntaxError
  end.

(** One statement on the session: the next planned failure, if any, else the
    engine. *)
Definition pg_statement (sql : string) (args : list pyval) : M Session (list Row) :=
  fun s =>
    let s' := set_faults (tail (faults s)) s in
    match head (faults s) with
    | Some (Some e) => (Raise (PostgresError e), s')
    | _ =>
        match engine sql args (table s) with
        | inl e => (Raise (PostgresError e), s')
        | inr (rows, t') => (Return rows, set_table t' s')
        end
    end.

(** [Connection.transaction()]: a new transaction object, not yet started. *)
Definition xact_new : M Session nat :=
  fun s => (Return (next_xact s), set_next_xact (S (next_xact s)) s).

(** [Transaction.start()]: BEGIN, or SAVEPOINT inside an open transaction. *)
Definition xact_start (id : nat) : M Session unit :=
  modify (fun s => set_xacts ((id, table s) :: xacts s) s).

(** The table saved when transaction [id] started and the transactions that
    enclose it, if [id] is open. *)
Fixpoint close_xact (id : nat) (xs : list (nat * list Row))
  : option (list Row * list (nat * list Row)) :=
  match xs with
  | [] => None
  | (i, snapshot) :: outer =>
      if Nat.eqb i id then Some (snapshot, outer) else close_xact id outer
  end.

(** [Transaction.commit()]. *)
Definition xact_commit (id : nat) : M Session unit :=
  fun s =>
    match close_xact id (xacts s) with
    | Some (_, outer) => (Return tt, set_xacts outer s)
    | None => (Raise (InterfaceError "cannot commit; the transaction is not started"), s)
    end.

(** [Transaction.rollback()]. *)
Definition xact_rollback (id : nat) : M Session unit :=
  fun s =>
    match close_xact id (xacts s) with
    | Some (snapshot, outer) => (Return tt, set_table snapshot (set_xacts outer s))
    | None => (Raise (InterfaceError "cannot rollback; the transaction is not started"), s)
    end.

(** [Connection.reset()], which the pool runs on a connection it takes back:
    whatever transaction is still open is rolled back. *)
Definition session_reset (s : Session) : Session :=
  set_table (committed s) (set_xacts [] s).

(** [asyncpg.pool.Pool]: the connections that are idle. *)
Record Pool : Type := mkPool { idle : list nat }.

(** ** [DatabaseConnection]

    [self] is the instance ([__slots__ = ("conn", "transaction")]); [config]
    and [pool] are the class attributes, [None] until [create_pool] sets
    them; [logger] is the log of the class logger, which the host installs;
    [server] is the session of the held connection; [clock] is the wall
    clock, read after so many suspensions in an [await], and [awaits] counts
    the suspensions so far. *)

Inductive log_record : Type :=
| LogDebug (sql : string) (args : list pyval)
| LogInfo (msg : string)
| LogCritical (msg : string).

Record DatabaseConnection : Type := mkDatabaseConnection {
  conn : option nat;
  transaction : option nat
}.

Record World : Type := mkWorld {
  self : DatabaseConnection;
  config : option (gmap string pyval);
  pool : option Pool;
  logger : list log_record;
  server : Session;
  clock : nat -> Z;
  awaits : nat
}.

Definition set_self (d : DatabaseConnection) (w : World) : World :=
  mkWorld d (config w) (pool w) (logger w) (server w) (clock w) (awaits w).
Definition set_conn (c : option nat) (w : World) : World :=
  set_self (mkDatabaseConnection c (transaction (self w))) w.
Definition set_transaction (t : option nat) (w : World) : World :=
  set_self (mkDatabaseConnection (conn (self w)) t) w.
Definition set_config (c : option (gmap string pyval)) (w : World) : World :=
  mkWorld (self w) c (pool w) (logger w) (server w) (clock w) (awaits w).
Definition set_pool (p : option Pool) (w : World) : World :=
  mkWorld (self w) (config w) p (logger w) (server w) (clock w) (awaits w).
Definition set_logger (l : list log_record) (w : World) : World :=
  mkWorld (self w) (config w) (pool w) l (server w) (clock w) (awaits w).
Definition set_server (s : Session) (w : World) : World :=
  mkWorld (self w) (config w) (pool w) (logger w) s (clock w) (awaits w).
Definition set_awaits (n : nat) (w : World) : World :=
  mkWorld (self w) (config w) (pool w) (logger w) (server w) (clock w) n.

(** The time it is. *)
Definition now (w : World) : Z := clock w (awaits w).

(** A call on the session that does not suspend. *)
Definition on_server {A : Type} (op : M Session A) : M World A :=
  fun w => let '(r, s) := op (server w) in (r, set_server s w).

(** [await op]: a round trip to the server, during which the coroutine is
    suspended and time passes. *)
Definition await {A : Type} (op : M Session A) : M World A :=
  fun w => let '(r, s) := op (server w) in (r, set_awaits (S (awaits w)) (set_server s w)).

Definition log (r : log_record) : M World unit :=
  modify (fun w => set_logger (logger w ++ [r])%list w).

(** [dt.utcnow()]. *)
Definition utcnow : M World Z := fun w => (Return (now w), w).

(** [await self.pool.release(c)]. *)
Definition pool_release (c : option nat) : M World unit :=
  fun w =>
    match pool w with
    | None => (Raise (AttributeError "'NoneType' object has no attribute 'release'"), w)
    | Some p =>
        match c with
        | None => (Raise (InterfaceError "release() received invalid connection"), w)
        | Some h =>
            (Return tt,
             set_awaits (S (awaits w))
               (set_server (session_reset (server w))
                  (set_pool (Some (mkPool (idle p ++ [h])%list)) w)))
        end
    end.

(** [await self.conn.fetch(sql, *args)]. *)
Definition conn_fetch (sql : string) (args : list pyval) : M World (list Row) :=
  w ← get;
  match conn (self w) with
  | None => raise (AttributeError "'NoneType' object has no attribute 'fetch'")
  | Some _ => await (pg_statement sql args)
  end.

(** [await self.conn.execute(sql, *args)]: the rows are not given back. *)
Definition conn_execute (sql : string) (args : list pyval) : M World unit :=
  w ← get;
  match conn (self w) with
  | None => raise (AttributeError "'NoneType' object has no attribute 'execute'")
  | Some _ => await (pg_statement sql args);; mret tt
  end.

(** [await self.transaction.rollback()]. *)
Definition transaction_rollback : M World unit :=
  w ← get;
  match transaction (self w) with
  | None => raise (AttributeError "'NoneType' object has no attribute 'rollback'")
  | Some t => await (xact_rollback t)
  end.

(** A user given by id or as a [discord.User]. *)
Inductive user_ref : Type :=
| UserId (id : Z)
| User (id : Z) (name : string).

(** [getattr(u, "id", u)]. *)
Definition getattr_id (u : user_ref) : Z :=
  match u with
  | UserId id => id
  | User id _ => id
  end.

Definition insert_marriage : string :=
  "INSERT INTO marriages (user_id, partner_id, guild_id, timestamp) VALUES ($1, $2, $3, $4)".

Definition insert_marriage_swapped : string :=
  "INSERT INTO marriages (user_id, partner_id, guild_id, timestamp) VALUES ($2, $1, $3, $4)".

Section DatabaseConnection.

(** [asyncpg.create_pool], called with the entries as keyword arguments. *)
Variable asyncpg_create_pool : gmap string pyval -> outcome Pool.

(** "Creates the database pool and plonks it in DatabaseConnection.pool".
    [config.pop("enabled")] raises [KeyError] without the entry; [exit(1)]
    raises [SystemExit]. *)
Definition create_pool (cfg : gmap string pyval) : M World unit :=
  modify (set_config (Some cfg));;
  match cfg !! "enabled" with
  | None => raise (KeyError "enabled")
  | Some enabled =>
      let modified_config := delete "enabled" cfg in
      (if is_False enabled then
         log (LogCritical "Database create pool method is being run when the database is disabled");;
         raise (SystemExit 1)
       else mret tt);;
      match asyncpg_create_pool modified_config with
      | Raise e => raise e
      | Return p => modify (set_pool (Some p))
      end
  end.

End DatabaseConnection.

(** "Releases a connection from the pool back to the mix": no look at
    [transaction]. *)
Definition disconnect : M World unit :=
  w ← get;
  pool_release (conn (self w));;
  modify (set_conn None).

(** "Creates a database object for a transaction": a new transaction object
    goes into [transaction], then it is started. *)
Definition start_transaction : M World unit :=
  w ← get;
  match conn (self w) with
  | None => raise (AttributeError "'NoneType' object has no attribute 'transaction'")
  | Some _ =>
      t ← on_server xact_new;
      modify (set_transaction (Some t));;
      await (xact_start t)
  end.

(** "Commits the transaction": commit, then [transaction] is [None]. *)
Definition commit_transaction : M World unit :=
  w ← get;
  match transaction (self w) with
  | None => raise (AttributeError "'NoneType' object has no attribute 'commit'")
  | Some t =>
      await (xact_commit t);;
      modify (set_transaction None)
  end.

(** Whether the statement gives rows back. *)
Definition expects_rows (sql : string) : bool :=
  contains "select" (casefold sql) || contains "returning" (casefold sql).

(** "Runs a line of SQL and returns a list, if things are expected back, or
    None, if nothing of interest is happening". *)
Definition __call__ (sql : string) (args : list pyval) : M World (option (list Row)) :=
  log (LogDebug sql args);;
  if expects_rows sql then
    x ← conn_fetch sql args;
    match x with
    | _ :: _ => mret (Some x)
    | [] => if expects_rows sql then mret (Some []) else mret None
    end
  else
    conn_execute sql args;;
    mret None.

(** "Marries two given Discord users together": the two symmetric rows in
    one transaction; [except Exception as e] rolls back and raises [e]. *)
Definition marry (instigator target : user_ref) (guild : Z) : M World unit :=
  let instigator_id := getattr_id instigator in
  let target_id := getattr_id target in
  start_transaction;;
  timestamp ← utcnow;
  try_except
    (__call__ insert_marriage
       [PyInt instigator_id; PyInt target_id; PyInt guild; PyDatetime timestamp];;
     __call__ insert_marriage_swapped
       [PyInt instigator_id; PyInt target_id; PyInt guild; PyDatetime timestamp];;
     mret tt)
    (fun e => transaction_rollback;; raise e);;
  commit_transaction.

(** ** [RedisHandler]

    The cog and what it reaches: its own [_channels] and [handlers], the
    subscriptions held on the Redis pool with the unsubscribe requests sent so
    far, the cog's log, whether the bot's event loop is running, the failures
    that the coming requests to the bus run into, and the state [env] of the
    bot that the handlers work on (vote table, proposal cache).  [events] is
    a ghost record of what a receive loop did, message by message. *)

Inductive task_state : Type :=
| Pending
| CancelRequested
| Done.

Record Task : Type := mkTask {
  task_channel : string;
  state : task_state
}.

(** [Task.cancel()]: a request, and nothing on a task that is done. *)
Definition cancel (t : Task) : Task :=
  match state t with
  | Pending => mkTask (task_channel t) CancelRequested
  | _ => t
  end.

Section RedisHandler.

(** The decoded payload, [json.loads], and the state of the bot. *)
Variable P : Type.
Variable json_loads : string -> option P.
Variable E : Type.

Inductive event : Type :=
| Decoded (n : nat) (data : P)
| Invoked (n : nat) (data : P)
| Returned (n : nat).

Record Cog : Type := mkCog {
  _channels : list string;
  handlers : list Task;
  subscribed : list string;
  unsubscribed : list string;
  log_handler : list string;
  loop_running : bool;
  bus_faults : list (option exn);
  env : E;
  events : list event
}.

Definition set_channels (c : list string) (w : Cog) : Cog :=
  mkCog c (handlers w) (subscribed w) (unsubscribed w) (log_handler w)
    (loop_running w) (bus_faults w) (env w) (events w).
Definition set_handlers (h : list Task) (w : Cog) : Cog :=
  mkCog (_channels w) h (subscribed w) (unsubscribed w) (log_handler w)
    (loop_running w) (bus_faults w) (env w) (events w).
Definition set_subscribed (c : list string) (w : Cog) : Cog :=
  mkCog (_channels w) (handlers w) c (unsubscribed w) (log_handler w)
    (loop_running w) (bus_faults w) (env w) (events w).
Definition set_unsubscribed (c : list string) (w : Cog) : Cog :=
  mkCog (_channels w) (handlers w) (subscribed w) c (log_handler w)
    (loop_running w) (bus_faults w) (env w) (events w).
Definition set_log_handler (l : list string) (w : Cog) : Cog :=
  mkCog (_channels w) (handlers w) (subscribed w) (unsubscribed w) l
    (loop_running w) (bus_faults w) (env w) (events w).
Definition set_bus_faults (f : list (option exn)) (w : Cog) : Cog :=
  mkCog (_channels w) (handlers w) (subscribed w) (unsubscribed w) (log_handler w)
    (loop_running w) f (env w) (events w).
Definition set_env (e : E) (w : Cog) : Cog :=
  mkCog (_channels w) (handlers w) (subscribed w) (unsubscribed w) (log_handler w)
    (loop_running w) (bus_faults w) e (events w).
Definition set_events (ev : list event) (w : Cog) : Cog :=
  mkCog (_channels w) (handlers w) (subscribed w) (unsubscribed w) (log_handler w)
    (loop_running w) (bus_faults w) (env w) ev.

Definition log_info (msg : string) : M Cog unit :=
  modify (fun w => set_log_handler (log_handler w ++ [msg])%list w).

Definition emit (ev : event) : M Cog unit :=
  modify (fun w => set_events (events w ++ [ev])%list w).

(** A request to the bus: the next planned failure, if any, else [op]. *)
Definition bus_request (op : Cog -> Cog) : M Cog unit :=
  fun w =>
    let w' := set_bus_faults (tail (bus_faults w)) w in
    match head (bus_faults w) with
    | Some (Some e) => (Raise e, w')
    | _ => (Return tt, op w')
    end.

(** [await re.conn.subscribe(channel_name)]. *)
Definition subscribe (channel_name : string) : M Cog unit :=
  bus_request (fun w => set_subscribed (subscribed w ++ [channel_name])%list w).

(** [self.bot.redis.pool.unsubscribe(channel)]. *)
Definition unsubscribe (channel : string) : M Cog unit :=
  bus_request (fun w =>
    set_unsubscribed (unsubscribed w ++ [channel])%list
      (set_subscribed (List.filter (fun c => negb (String.eqb c channel)) (subscribed w)) w)).

(** [self.bot.loop.run_until_complete(coro)]: refused inside a running
    loop. *)
Definition run_until_complete (coro : M Cog unit) : M Cog unit :=
  w ← get;
  if loop_running w then raise (RuntimeError "This event loop is already running")
  else coro.

(** [list.remove(x)]: the first occurrence. *)
Fixpoint list_remove (x : string) (l : list string) : option (list string) :=
  match l with
  | [] => None
  | y :: rest =>
      if String.eqb y x then Some rest
      else match list_remove x rest with
           | Some rest' => Some (y :: rest')
           | None => None
           end
  end.

Definition channels_remove (channel : string) : M Cog unit :=
  w ← get;
  match list_remove channel (_channels w) with
  | Some l => modify (set_channels l)
  | None => raise (ValueError "list.remove(x): x not in list")
  end.

(** The second loop of [cog_unload], over the copy of [_channels]. *)
Fixpoint unsubscribe_each (copy : list string) : M Cog unit :=
  match copy with
  | [] => mret tt
  | channel :: rest =>
      run_until_complete (unsubscribe channel);;
      channels_remove channel;;
      log_info ("Unsubscribing from Redis channel " ++ channel);;
      unsubscribe_each rest
  end.

(** "Handles cancelling all the channel subscriptions on cog unload". *)
Definition cog_unload : M Cog unit :=
  modify (fun w => set_handlers (map cancel (handlers w)) w);;
  w ← get;
  unsubscribe_each (_channels w).

(** A handler is a plain function or a coroutine function on the decoded
    payload. *)
Inductive callable : Type :=
| PlainFunction (f : P -> M E unit)
| CoroutineFunction (f : P -> M E unit).

Definition on_env {A : Type} (m : M E A) : M Cog A :=
  fun w => let '(r, e) := m (env w) in (r, set_env e w).

(** [await channel.get_json()] on the message [raw], the [n]th delivered. *)
Definition get_json (n : nat) (raw : string) : M Cog P :=
  match json_loads raw with
  | Some data => emit (Decoded n data);; mret data
  | None => raise (JSONDecodeError raw)
  end.

(** The body of the [if]: both branches run the handler to its end before
    the loop goes on. *)
Definition invoke (function : callable) (n : nat) (data : P) : M Cog unit :=
  emit (Invoked n data);;
  match function with
  | CoroutineFunction f => on_env (f data)
  | PlainFunction f => on_env (f data)
  end;;
  emit (Returned n).

(** [while (await channel.wait_message()): ...] over the messages that the
    channel delivers before it is closed; [n] counts the messages taken. *)
Fixpoint receive_loop (function : callable) (n : nat) (delivered : list string)
  : M Cog unit :=
  match delivered with
  | [] => mret tt
  | raw :: rest =>
      data ← get_json n raw;
      invoke function n data;;
      receive_loop function (S n) rest
  end.

(** "General handler for creating a channel, waiting for an input, and then
    plugging the data into a function". *)
Definition channel_handler (channel_name : string) (function : callable)
    (delivered : list string) : M Cog unit :=
  modify (fun w => set_channels (_channels w ++ [channel_name])%list w);;
  log_info ("Subscribing to Redis channel " ++ channel_name);;
  subscribe channel_name;;
  log_info ("Looping to wait for messages to channel " ++ channel_name);;
  receive_loop function 0 delivered.

End RedisHandler.

Arguments Decoded {P} n data.
Arguments Invoked {P} n data.
Arguments Returned {P} n.
Arguments mkCog {P E}.
Arguments _channels {P E} c.
Arguments handlers {P E} c.
Arguments subscribed {P E} c.
Arguments unsubscribed {P E} c.
Arguments log_handler {P E} c.
Arguments loop_running {P E} c.
Arguments bus_faults {P E} c.
Arguments env {P E} c.
Arguments events {P E} c.
Arguments PlainFunction {P E} f.
Arguments CoroutineFunction {P E} f.
Arguments cog_unload {P E}.
Arguments unsubscribe_each {P E} copy.
Arguments receive_loop {P} json_loads {E} function n delivered.
Arguments channel_handler {P} json_loads {E} channel_name function delivered.
Arguments invoke {P E} function n data.
Arguments get_json {P} json_loads {E} n raw.
Arguments set_channels {P E} c w.
Arguments set_handlers {P E} h w.
Arguments set_subscribed {P E} c w.
Arguments set_unsubscribed {P E} c w.
Arguments set_log_handler {P E} l w.
Arguments set_bus_faults {P E} f w.
Arguments set_env {P E} e w.
Arguments set_events {P E} ev w.
Arguments log_info {P E} msg.
Arguments emit {P E} ev.
Arguments bus_request {P E} op.
Arguments subscribe {P E} channel_name.
Arguments unsubscribe {P E} channel.
Arguments run_until_complete {P E} coro.
Arguments channels_remove {P E} channel.
Arguments on_env {P E A} m.

(** What a call of the handler does to the state of the bot. *)
Definition run_handler {P E : Type} (function : callable P E) : P -> M E unit :=
  match function with
  | PlainFunction f => f
  | CoroutineFunction f => f
  end.

(** The messages that a receive loop decoded and the handler invocations it
    made, each with the position of the message in the delivery. *)
Definition decodes {P : Type} (tr : list (event P)) : list (nat * P) :=
  omap (fun ev => match ev with Decoded n d => Some (n, d) | _ => None end) tr.

Definition invocations {P : Type} (tr : list (event P)) : list (nat * P) :=
  omap (fun ev => match ev with Invoked n d => Some (n, d) | _ => None end) tr.

(** A record in which every message is decoded, handed to the handler, and
    the handler has returned before anything else happens; only the last
    invocation may lack its return, when the handler raised. *)
Fixpoint one_at_a_time {P : Type} (tr : list (event P)) : Prop :=
  match tr with
  | [] => True
  | Decoded i _ :: Invoked j _ :: [] => i = j
  | Decoded i _ :: Invoked j _ :: Returned k :: rest =>
      i = j /\ j = k /\ one_at_a_time rest
  | _ => False
  end.

(** The failure planned for the [k]th coming statement of a session. *)
Definition planned (k : nat) (s : Session) : option pg_error :=
  mjoin (faults s !! k).

(** ** The states that the steps of [marry] lead to *)

(** After [start_transaction]: a new transaction in the marker, started on
    the session, one round trip later. *)
Definition begun (w : World) : World :=
  let s := server w in
  set_awaits (S (awaits w))
    (set_server
       (set_xacts ((next_xact s, table s) :: xacts s) (set_next_xact (S (next_xact s)) s))
       (set_transaction (Some (next_xact s)) w)).

(** After [__call__] has logged a statement and the session has answered it,
    the table then being [t]. *)
Definition sent (r : log_record) (t : list Row) (w : World) : World :=
  set_awaits (S (awaits w))
    (set_server (set_table t (set_faults (tail (faults (server w))) (server w)))
       (set_logger (logger w ++ [r])%list w)).

(** After a transaction has been committed or rolled back, leaving the table
    [t] and the transactions [outer] open. *)
Definition ended (t : list Row) (outer : list (nat * list Row)) (w : World) : World :=
  set_awaits (S (awaits w)) (set_server (set_table t (set_xacts outer (server w))) w).

(** The arguments that [marry] gives to both statements. *)
Definition marry_args (instigator target : user_ref) (guild ts : Z) : list pyval :=
  [PyInt (getattr_id instigator); PyInt (getattr_id target); PyInt guild; PyDatetime ts].

(** ** States and inputs used in the examples *)

Module Sample.

(** A lease on connection 7 of an initialised pool, no transaction open,
    an empty table. *)
Definition idle_session : Session := mkSession [] [] 0 [].

Definition lease : World :=
  mkWorld (mkDatabaseConnection (Some 7%nat) None) None (Some (mkPool []))
    [] idle_session (fun n => 100 + Z.of_nat n) 0.

(** The same lease when the second statement to come violates a key. *)
Definition lease_second_fails : World :=
  set_server (set_faults [None; Some UniqueViolationError] idle_session) lease.

(** The same lease when the first statement to come violates a key. *)
Definition lease_first_fails : World :=
  set_server (set_faults [Some UniqueViolationError] idle_session) lease.

(** A lease whose transaction 0 is open. *)
Definition lease_in_transaction : World :=
  mkWorld (mkDatabaseConnection (Some 7%nat) (Some 0%nat)) None (Some (mkPool []))
    [] (mkSession [] [(0%nat, [])] 1 []) (fun n => 100 + Z.of_nat n) 0.

(** Before [create_pool]: no pool, no configuration. *)
Definition at_startup : World :=
  mkWorld (mkDatabaseConnection None None) None None [] idle_session (fun n => 100 + Z.of_nat n) 0.

Definition disabled_config : gmap string pyval :=
  <["enabled" := PyBool false]> (<["database" := PyStr "marriagebot"]> ∅).

Definition one_connection_pool (kwargs : gmap string pyval) : outcome Pool :=
  Return (mkPool [0%nat]).

(** JSON restricted to its three literal documents; any other text is
    refused. *)
Definition json_literal (raw : string) : option pyval :=
  if String.eqb raw "null" then Some PyNone
  else if String.eqb raw "true" then Some (PyBool true)
  else if String.eqb raw "false" then Some (PyBool false)
  else None.

(** A handler that keeps what it is given. *)
Definition keep : callable pyval (list pyval) :=
  PlainFunction (fun data => modify (fun kept => (kept ++ [data])%list)).

(** A handler that needs a boolean payload. *)
Definition need_bool : callable pyval (list pyval) :=
  PlainFunction (fun data =>
    match data with
    | PyBool _ => modify (fun kept => (kept ++ [data])%list)
    | _ => raise (KeyError "user_id")
    end).

Definition cog (channels : list string) (tasks : list Task) : Cog pyval (list pyval) :=
  mkCog channels tasks channels [] [] false [] [] [].

Definition listening : Cog pyval (list pyval) :=
  cog ["DBLVote"; "ProposalCacheAdd"]
    [mkTask "DBLVote" Pending; mkTask "ProposalCacheAdd" Pending].

End Sample.

(** ** The rest of [DatabaseConnection]: construction, acquisition, scopes *)

(** [__init__(self, connection=None, transaction=None)]. *)
Definition DatabaseConnection__init__ (connection transaction : option nat)
  : DatabaseConnection :=
  mkDatabaseConnection connection transaction.

(** [await cls.pool.acquire()].  The pool hands out the connection that came
    back last.  With no idle connection the coroutine stays suspended until
    some other lease is released: within one flow of control that is no
    outcome at all, hence [None]. *)
Definition pool_acquire (w : World) : option (outcome nat * World) :=
  match pool w with
  | None => Some (Raise (AttributeError "'NoneType' object has no attribute 'acquire'"), w)
  | Some p =>
      match rev (idle p) with
      | [] => None
      | h :: others =>
          Some (Return h, set_awaits (S (awaits w)) (set_pool (Some (mkPool (rev others))) w))
      end
  end.

(** "Acquires a connection to the database from the pool": the lease is a new
    object, [cls(conn)], so its transaction marker is [None]. *)
Definition get_connection (w : World) : option (outcome unit * World) :=
  match pool_acquire w with
  | None => None
  | Some (Raise e, w') => Some (Raise e, w')
  | Some (Return c, w') =>
      Some (Return tt, set_self (DatabaseConnection__init__ (Some c) None) w')
  end.

(** [__aenter__]: the object at hand takes the connection; its transaction
    marker is not touched. *)
Definition __aenter__ (w : World) : option (outcome unit * World) :=
  match pool_acquire w with
  | None => None
  | Some (Raise e, w') => Some (Raise e, w')
  | Some (Return c, w') => Some (Return tt, set_conn (Some c) w')
  end.

(** [__aexit__(self, exc_type, exc, tb)]: the three arguments are not looked
    at, and nothing is returned, so an exception of the block is not
    suppressed. *)
Definition __aexit__ (exc : option exn) : M World unit :=
  w ← get;
  pool_release (conn (self w));;
  modify (set_conn None).

(** Every transaction that is open on the session was created before the
    next one will be. *)
Definition xacts_fresh (s : Session) : Prop :=
  Forall (fun x => (fst x < next_xact s)%nat) (xacts s).

(** ** The construction of [RedisHandler] *)


(** The failure planned for the [k]th coming request to the bus. *)
Definition bus_planned {P E : Type} (k : nat) (w : Cog P E) : option exn :=
  mjoin (bus_faults w !! k).

(** The line that [cog_unload] logs for a channel. *)
Definition unsubscribing (channel : string) : string :=
  "Unsubscribing from Redis channel " ++ channel.

(** ** [website/utils/add_output_args.py]

    The decorator that every route of the website goes through.  A route
    handler takes the request and gives back a redirect, a dict of template
    parameters, or something else; it works on the session of the request,
    which is the state here. *)

(** What a session holds and what a handler puts in a dict. *)
#[warnings="-register-all"]
Inductive obj : Type :=
| ONone
| OBool (b : bool)
| OInt (z : Z)
| OStr (s : string)
| ODict (d : gmap string obj).

(** [bool(o)]. *)
Definition truthy (o : obj) : bool :=
  match o with
  | ONone => false
  | OBool b => b
  | OInt z => negb (Z.eqb z 0)
  | OStr s => negb (String.eqb s "")
  | ODict d => negb (bool_decide (d = ∅))
  end.

(** A template parameter: a value, or the session or request object itself. *)
Inductive tval : Type :=
| Val (o : obj)
| TheSession
| TheRequest.

Record Request : Type := mkRequest { url : string }.

(** What a handler returns: [HTTPFound(location)], a dict, [None], or any
    other response. *)
Inductive result : Type :=
| HTTPFound (location : obj)
| Dict (data : gmap string tval)
| NoneResult
| Response (text : string).

(** [data.location == path]. *)
Definition location_is (location : obj) (path : string) : bool :=
  match location with
  | OStr s => String.eqb s path
  | _ => false
  end.

Definition og_title : string := "MarriageBot - A marriage-based Discord bot".
Definition og_description : string :=
  "MarriageBot is a Discord bot used for simulations of your family, be it that you want b1nzy as your mom, or Jake as your nephew, MarriageBot can handle it all.".
Definition og_type : string := "website".
Definition og_image : string :=
  "https://marriagebot.xyz/static/images/MarriageBotCircle.150.png".
Definition og_locale : string := "en_GB".

(** [og_data[key] = og_data.get(key, value)]. *)
Definition setdefault (key value : string) (og_data : gmap string obj) : gmap string obj :=
  <[key := default (OStr value) (og_data !! key)]> og_data.

(** "Update jinja params" and "Update OpenGraph information": the tail of
    [wrapper], on a dict. *)
Definition update_params (data : gmap string tval) : M (gmap string obj) result :=
  session ← get;
  let data := <["session" := TheSession]> data in
  let data :=
    match data !! "user_info" with
    | None => <["user_info" := Val (default ONone (session !! "user_info"))]> data
    | Some _ => data
    end in
  let data :=
    match data !! "request" with
    | None => <["request" := TheRequest]> data
    | Some _ => data
    end in
  let data :=
    match data !! "opengraph" with
    | None => <["opengraph" := Val (ODict ∅)]> data
    | Some _ => data
    end in
  match data !! "opengraph" with
  | Some (Val (ODict og)) =>
      let og_data := og in
      let og_data := setdefault "og:title" og_title og_data in
      let og_data := setdefault "og:description" og_description og_data in
      let og_data := setdefault "og:type" og_type og_data in
      let og_data := setdefault "og:image" og_image og_data in
      let og_data := setdefault "og:locale" og_locale og_data in
      mret (Dict (<["opengraph" := Val (ODict og_data)]> data))
  | _ => raise (AttributeError "object has no attribute 'copy'")
  end.

(** "This is the wrapper that does all the heavy lifting".  The line
    [if data is None: data = dict()] stands after the return of everything
    that is not a dict, so it has no case here. *)
Definition wrapper (func : Request -> M (gmap string obj) result) (request : Request)
  : M (gmap string obj) result :=
  data ← func request;
  match data with
  | HTTPFound location =>
      if location_is location "/discord_oauth_login" then
        session ← get;
        match session !! "redirect_on_login" with
        | None => modify (insert "redirect_on_login" (OStr (url request)))
        | Some _ => mret tt
        end
      else mret tt
  | _ => mret tt
  end;;
  match data with
  | Dict d =>
      session ← get;
      let login_redirect := default ONone (session !! "redirect_on_login") in
      modify (delete "redirect_on_login");;
      if truthy login_redirect then mret (HTTPFound login_redirect)
      else update_params d
  | _ => mret data
  end.

(** "An inner wrapper so I can get args at the outer level". *)
Definition inner_wrapper (func : Request -> M (gmap string obj) result)
  : Request -> M (gmap string obj) result :=
  wrapper func.

(** "This function is a wrapper around all routes.  It takes the output and
    adds the user info and request to the returning dictionary". *)
Definition add_output_args (_ : unit)
  : (Request -> M (gmap string obj) result) -> Request -> M (gmap string obj) result :=
  inner_wrapper.

(** The entries that [wrapper] puts into an [opengraph] dict that lacks
    them. *)
Definition og_defaults : gmap string obj :=
  <["og:title" := OStr og_title]>
    (<["og:description" := OStr og_description]>
       (<["og:type" := OStr og_type]>
          (<["og:image" := OStr og_image]>
             (<["og:locale" := OStr og_locale]> ∅)))).

(** The dict as [update_params] has it when it comes to [opengraph]: with
    [session], and with [user_info], [request] and [opengraph] if they were
    missing. *)
Definition prepared (data : gmap string tval) (session : gmap string obj)
  : gmap string tval :=
  let data := <["session" := TheSession]> data in
  let data :=
    match data !! "user_info" with
    | None => <["user_info" := Val (default ONone (session !! "user_info"))]> data
    | Some _ => data
    end in
  let data :=
    match data !! "request" with
    | None => <["request" := TheRequest]> data
    | Some _ => data
    end in
  match data !! "opengraph" with
  | None => <["opengraph" := Val (ODict ∅)]> data
  | Some _ => data
  end.

(** A handler that returns [r] and leaves the session alone. *)
Definition returning (r : result) : Request -> M (gmap string obj) result :=
  fun _ => mret r.

(** ** More states and inputs used in the examples *)

Module Scenario.

(** A pool with the connections 3 and 5 idle, 5 released last. *)
Definition pool_of_two : World :=
  set_pool (Some (mkPool [3; 5]%nat)) Sample.at_startup.

(** A configuration without the [enabled] entry, and one with a falsy
    entry that is not [False]. *)
Definition config_without_enabled : gmap string pyval :=
  <["database" := PyStr "marriagebot"]> ∅.

Definition config_enabled_zero : gmap string pyval :=
  <["enabled" := PyInt 0]> (<["database" := PyStr "marriagebot"]> ∅).

(** The cog of [Sample.listening] when the bus fails on the second request. *)
Definition bus_fails_second : Cog pyval (list pyval) :=
  set_bus_faults [None; Some (RuntimeError "connection lost")] Sample.listening.


(** A cog on which no handler has run yet. *)
Definition fresh_cog : Cog pyval (list pyval) :=
  mkCog [] [] [] [] [] false [] [] [].


End Scenario.

(** ** [marry] over any connection

    The reference session answers BEGIN, COMMIT and ROLLBACK of a started
    transaction without fail, and its statements fail with PostgreSQL errors
    only.  A connection can do otherwise: it can be lost, so that the
    rollback itself raises.  Here is [marry] once more, line by line, over
    whatever the operations of the lease do; [marry] is the instance at the
    reference session. *)

Section AnyConnection.

Variable S : Type.

(** [self.start_transaction()], [dt.utcnow()], [self(sql, *args)],
    [self.transaction.rollback()] and [self.commit_transaction()]. *)
Variable start : M S unit.
Variable read_clock : M S Z.
Variable call : string -> list pyval -> M S (option (list Row)).
Variable rollback : M S unit.
Variable commit : M S unit.

Definition marry_on (instigator target : user_ref) (guild : Z) : M S unit :=
  let instigator_id := getattr_id instigator in
  let target_id := getattr_id target in
  start;;
  timestamp ← read_clock;
  try_except
    (call insert_marriage
       [PyInt instigator_id; PyInt target_id; PyInt guild; PyDatetime timestamp];;
     call insert_marriage_swapped
       [PyInt instigator_id; PyInt target_id; PyInt guild; PyDatetime timestamp];;
     mret tt)
    (fun e => rollback;; raise e);;
  commit.

End AnyConnection.

Arguments marry_on {S} start read_clock call rollback commit instigator target guild.

(** [Transaction.rollback()] once the connection has been lost: the ROLLBACK
    cannot be sent, and nothing of the session changes. *)
Definition xact_rollback_lost (id : nat) : M Session unit :=
  raise (InterfaceError "cannot perform operation: connection is closed").

(** [await self.transaction.rollback()] on such a connection. *)
Definition rollback_on_lost_connection : M World unit :=
  w ← get;
  match transaction (self w) with
  | None => raise (AttributeError "'NoneType' object has no attribute 'rollback'")
  | Some t => await (xact_rollback_lost t)
  end.

(** ** What the receive loop is held against *)

(** The handler on one payload after the other, each call on the state of
    the bot that the call before it left, up to the first call that
    raises. *)
Fixpoint handle_all {P E : Type} (function : callable P E) (payloads : list P)
  : M E unit :=
  match payloads with
  | [] => mret tt
  | data :: rest => run_handler function data;; handle_all function rest
  end.

(** Text of ASCII characters only: on such text [casefold] above is
    [str.casefold]. *)
Fixpoint is_ascii (s : string) : bool :=
  match s with
  | EmptyString => true
  | String c rest => Nat.ltb (nat_of_ascii c) 128 && is_ascii rest
  end.

(** [sql] has the word select or returning somewhere, in any mix of upper
    and lower case. *)
Definition has_keyword (sql : string) : Prop :=
  exists before keyword after,
    sql = before ++ keyword ++ after
    /\ (casefold keyword = "select" \/ casefold keyword = "returning").

Module Lost.

(** The lease of [Sample.lease] when the connection is lost during the second
    statement to come. *)
Definition lease : World :=
  set_server (set_faults [None; Some ConnectionDoesNotExistError] Sample.idle_session)
    Sample.lease.

End Lost.

(** * Properties *)

(** ** The transactional wrapper *)

Lemma bind_run {S A B : Type} (m : M S A) (k : A -> M S B) (s : S) :
  (m ≫= k) s
  = match m s with
    | (Return a, s') => k a s'
    | (Raise e, s') => (Raise e, s')
    end.
Proof. reflexivity. Qed.

Lemma try_except_run {S A : Type} (body : M S A) (handler : exn -> M S A) (s : S) :
  try_except body handler s
  = match body s with
    | (Return a, s') => (Return a, s')
    | (Raise e, s') => if is_Exception e then handler e s' else (Raise e, s')
    end.
Proof. reflexivity. Qed.

Lemma close_xact_head (id : nat) (snapshot : list Row) (outer : list (nat * list Row)) :
  close_xact id ((id, snapshot) :: outer) = Some (snapshot, outer).
Proof. simpl. now rewrite Nat.eqb_refl. Qed.

Lemma expects_rows_insert_marriage : expects_rows insert_marriage = false.
Proof. vm_compute. reflexivity. Qed.

Lemma expects_rows_insert_marriage_swapped : expects_rows insert_marriage_swapped = false.
Proof. vm_compute. reflexivity. Qed.

Lemma engine_insert_marriage (i t : user_ref) (g ts : Z) (tbl : list Row) :
  engine insert_marriage (marry_args i t g ts) tbl
  = inr ([], (tbl ++ [mkRow (getattr_id i) (getattr_id t) g ts])%list).
Proof. reflexivity. Qed.

Lemma engine_insert_marriage_swapped (i t : user_ref) (g ts : Z) (tbl : list Row) :
  engine insert_marriage_swapped (marry_args i t g ts) tbl
  = inr ([], (tbl ++ [mkRow (getattr_id t) (getattr_id i) g ts])%list).
Proof. reflexivity. Qed.

Lemma planned_sent (k : nat) (r : log_record) (t : list Row) (w : World) :
  planned k (server (sent r t w)) = planned (S k) (server w).
Proof. unfold planned, sent. cbn. now destruct (faults (server w)). Qed.

Lemma planned_head (s : Session) :
  planned 0 s = match head (faults s) with Some (Some e) => Some e | _ => None end.
Proof. unfold planned. now destruct (faults s) as [|[e|] fs]. Qed.

(** *** The steps, one by one *)

Lemma start_transaction_run (w : World) (c : nat) :
  conn (self w) = Some c ->
  start_transaction w = (Return tt, begun w).
Proof. destruct w as [[c0 tx] cfg p lg s nw]; cbn; intros ->. reflexivity. Qed.

Lemma start_transaction_without_connection (w : World) :
  conn (self w) = None ->
  start_transaction w
  = (Raise (AttributeError "'NoneType' object has no attribute 'transaction'"), w).
Proof. destruct w as [[c0 tx] cfg p lg s nw]; cbn; intros ->. reflexivity. Qed.

(** A statement that does not expect rows, on a held connection: the planned
    failure, or what the engine says. *)
Lemma call_mutation_run (sql : string) (args : list pyval) (w : World) (c : nat) :
  conn (self w) = Some c ->
  expects_rows sql = false ->
  __call__ sql args w
  = match planned 0 (server w) with
    | Some e => (Raise (PostgresError e), sent (LogDebug sql args) (table (server w)) w)
    | None =>
        match engine sql args (table (server w)) with
        | inl e => (Raise (PostgresError e), sent (LogDebug sql args) (table (server w)) w)
        | inr (_, t) => (Return None, sent (LogDebug sql args) t w)
        end
    end.
Proof.
  destruct w as [[c0 tx] cfg p lg [tbl xs nx fs] nw]; cbn; intros -> Hkind.
  unfold __call__. rewrite Hkind, planned_head.
  destruct fs as [|[e|] fs]; cbn; try reflexivity;
    unfold conn_execute, await, pg_statement, log, mbind, M_bind, bind, get, modify; cbn;
    destruct (engine sql args tbl) as [e|[rows t]]; reflexivity.
Qed.

Lemma call_insert_marriage_run (i t : user_ref) (g ts : Z) (w : World) (c : nat) :
  conn (self w) = Some c ->
  __call__ insert_marriage (marry_args i t g ts) w
  = match planned 0 (server w) with
    | Some e =>
        (Raise (PostgresError e),
         sent (LogDebug insert_marriage (marry_args i t g ts)) (table (server w)) w)
    | None =>
        (Return None,
         sent (LogDebug insert_marriage (marry_args i t g ts))
           (table (server w) ++ [mkRow (getattr_id i) (getattr_id t) g ts])%list w)
    end.
Proof.
  intros Hc.
  rewrite (call_mutation_run _ _ w c Hc expects_rows_insert_marriage).
  now rewrite engine_insert_marriage.
Qed.

Lemma call_insert_marriage_swapped_run (i t : user_ref) (g ts : Z) (w : World) (c : nat) :
  conn (self w) = Some c ->
  __call__ insert_marriage_swapped (marry_args i t g ts) w
  = match planned 0 (server w) with
    | Some e =>
        (Raise (PostgresError e),
         sent (LogDebug insert_marriage_swapped (marry_args i t g ts)) (table (server w)) w)
    | None =>
        (Return None,
         sent (LogDebug insert_marriage_swapped (marry_args i t g ts))
           (table (server w) ++ [mkRow (getattr_id t) (getattr_id i) g ts])%list w)
    end.
Proof.
  intros Hc.
  rewrite (call_mutation_run _ _ w c Hc expects_rows_insert_marriage_swapped).
  now rewrite engine_insert_marriage_swapped.
Qed.

Lemma transaction_rollback_run (w : World) (id : nat) (snapshot : list Row)
    (outer : list (nat * list Row)) :
  transaction (self w) = Some id ->
  xacts (server w) = (id, snapshot) :: outer ->
  transaction_rollback w = (Return tt, ended snapshot outer w).
Proof.
  destruct w as [[c0 tx] cfg p lg [tbl xs nx fs] nw]; cbn; intros -> ->.
  unfold transaction_rollback, await, xact_rollback, mbind, M_bind, bind, get; cbn -[close_xact].
  now rewrite close_xact_head.
Qed.

Lemma commit_transaction_run (w : World) (id : nat) (snapshot : list Row)
    (outer : list (nat * list Row)) :
  transaction (self w) = Some id ->
  xacts (server w) = (id, snapshot) :: outer ->
  commit_transaction w = (Return tt, set_transaction None (ended (table (server w)) outer w)).
Proof.
  destruct w as [[c0 tx] cfg p lg [tbl xs nx fs] nw]; cbn; intros -> ->.
  unfold commit_transaction, await, xact_commit, mbind, M_bind, bind, get, modify;
    cbn -[close_xact].
  now rewrite close_xact_head.
Qed.

(** *** [marry], step by step *)

(** The state in which the [try] block is entered, and those its statements
    lead to. *)
Lemma marry_run (instigator target : user_ref) (guild : Z) (w : World) (c : nat) :
  conn (self w) = Some c ->
  let args := marry_args instigator target guild (now (begun w)) in
  let row1 := mkRow (getattr_id instigator) (getattr_id target) guild (now (begun w)) in
  let row2 := mkRow (getattr_id target) (getattr_id instigator) guild (now (begun w)) in
  let tbl := table (server w) in
  marry instigator target guild w
  = match planned 0 (server w) with
    | Some e =>
        (Raise (PostgresError e),
         ended tbl (xacts (server w)) (sent (LogDebug insert_marriage args) tbl (begun w)))
    | None =>
        let w2 := sent (LogDebug insert_marriage args) (tbl ++ [row1])%list (begun w) in
        match planned 1 (server w) with
        | Some e =>
            (Raise (PostgresError e),
             ended tbl (xacts (server w))
               (sent (LogDebug insert_marriage_swapped args) (tbl ++ [row1])%list w2))
        | None =>
            (Return tt,
             set_transaction None
               (ended ((tbl ++ [row1]) ++ [row2])%list (xacts (server w))
                  (sent (LogDebug insert_marriage_swapped args)
                     ((tbl ++ [row1]) ++ [row2])%list w2)))
        end
    end.
Proof.
  intros Hc. cbn zeta.
  unfold marry. cbn zeta. rewrite bind_run, (start_transaction_run w c Hc).
  rewrite bind_run. unfold utcnow at 1.
  fold (marry_args instigator target guild (now (begun w))).
  rewrite bind_run, try_except_run, bind_run.
  rewrite (call_insert_marriage_run _ _ _ _ (begun w) c) by (cbn; exact Hc).
  change (planned 0 (server (begun w))) with (planned 0 (server w)).
  change (table (server (begun w))) with (table (server w)).
  destruct (planned 0 (server w)) as [e0|].
  - cbn [is_Exception]. rewrite bind_run.
    erewrite transaction_rollback_run by reflexivity. reflexivity.
  - rewrite bind_run.
    rewrite (call_insert_marriage_swapped_run _ _ _ _ _ c) by (cbn; exact Hc).
    rewrite planned_sent.
    change (planned 1 (server (begun w))) with (planned 1 (server w)).
    destruct (planned 1 (server w)) as [e1|].
    + cbn [is_Exception]. rewrite bind_run.
      erewrite transaction_rollback_run by reflexivity. reflexivity.
    + unfold mret, M_ret, ret. cbv beta iota.
      erewrite commit_transaction_run by reflexivity. reflexivity.
Qed.

(** What [marry] does on a lease that holds a connection, by the failures
    planned for its two statements. *)
Lemma marry_outcome (instigator target : user_ref) (guild : Z) (w : World) (c : nat) :
  conn (self w) = Some c ->
  exists w',
    match planned 0 (server w), planned 1 (server w) with
    | None, None =>
        marry instigator target guild w = (Return tt, w')
        /\ table (server w')
           = (table (server w)
              ++ [mkRow (getattr_id instigator) (getattr_id target) guild (now (begun w));
                  mkRow (getattr_id target) (getattr_id instigator) guild (now (begun w))])%list
        /\ transaction (self w') = None
    | Some e, _ | None, Some e =>
        marry instigator target guild w = (Raise (PostgresError e), w')
        /\ table (server w') = table (server w)
        /\ transaction (self w') = Some (next_xact (server w))
    end
    /\ xacts (server w') = xacts (server w).
Proof.
  intros Hc. pose proof (marry_run instigator target guild w c Hc) as Hrun.
  cbn zeta in Hrun.
  destruct (planned 0 (server w)) as [e0|]; [|destruct (planned 1 (server w)) as [e1|]];
    eexists; (split; [split; [exact Hrun|]|]); cbn; rewrite <- ?app_assoc; auto.
Qed.

Lemma marry_without_connection (instigator target : user_ref) (guild : Z) (w : World) :
  conn (self w) = None ->
  exists e, marry instigator target guild w = (Raise e, w).
Proof.
  intros Hc. eexists. unfold marry.
  now rewrite bind_run, (start_transaction_without_connection w Hc).
Qed.





(** On the reference session, where the ROLLBACK of a started transaction
    does not fail and statements fail with PostgreSQL errors: when a
    statement of [marry] raises E, the rollback returns, [marry] raises that
    same E, and the table and the enclosing transactions are what they were
    before. *)
Lemma marry_reraises_on_reference_session (instigator target : user_ref) (guild : Z)
    (w w1 w2 : World) (E : exn) :
  start_transaction w = (Return tt, w1) ->
  __call__ insert_marriage (marry_args instigator target guild (now w1)) w1 = (Raise E, w2)
  \/ (exists r w1',
        __call__ insert_marriage (marry_args instigator target guild (now w1)) w1
        = (Return r, w1')
        /\ __call__ insert_marriage_swapped (marry_args instigator target guild (now w1)) w1'
           = (Raise E, w2)) ->
  exists w3,
    transaction_rollback w2 = (Return tt, w3)
    /\ marry instigator target guild w = (Raise E, w3)
    /\ table (server w3) = table (server w)
    /\ xacts (server w3) = xacts (server w).
Proof.
  intros Hstart Hraise.
  destruct (conn (self w)) as [c|] eqn:Hc.
  2: { rewrite (start_transaction_without_connection w Hc) in Hstart. discriminate. }
  rewrite (start_transaction_run w c Hc) in Hstart. injection Hstart as <-.
  pose proof (marry_run instigator target guild w c Hc) as Hmarry. cbn zeta in Hmarry.
  assert (Hc1 : conn (self (begun w)) = Some c) by exact Hc.
  rewrite (call_insert_marriage_run _ _ _ _ _ c Hc1) in Hraise.
  change (planned 0 (server (begun w))) with (planned 0 (server w)) in Hraise.
  change (table (server (begun w))) with (table (server w)) in Hraise.
  destruct (planned 0 (server w)) as [e0|].
  - destruct Hraise as [Hfirst | (r & w1' & Hfirst & _)]; [|discriminate].
    injection Hfirst as <- <-.
    eexists. split; [|split; [exact Hmarry|split; reflexivity]].
    now erewrite transaction_rollback_run by reflexivity.
  - destruct Hraise as [Hfirst | (r & w1' & Hfirst & Hsecond)]; [discriminate|].
    injection Hfirst as <- <-.
    rewrite (call_insert_marriage_swapped_run _ _ _ _ _ c) in Hsecond by exact Hc.
    rewrite planned_sent in Hsecond.
    change (planned 1 (server (begun w))) with (planned 1 (server w)) in Hsecond.
    destruct (planned 1 (server w)) as [e1|]; [|discriminate].
    injection Hsecond as <- <-.
    eexists. split; [|split; [exact Hmarry|split; reflexivity]].
    now erewrite transaction_rollback_run by reflexivity.
Qed.

(** [marry] is [marry_on] at the operations of the lease. *)
Lemma marry_is_marry_on :
  marry = marry_on start_transaction utcnow __call__ transaction_rollback commit_transaction.
Proof. reflexivity. Qed.

(** [marry] up to its [try] block, whatever the operations do. *)
Lemma marry_on_run {S : Type} (start : M S unit) (read_clock : M S Z)
    (call : string -> list pyval -> M S (option (list Row))) (rollback commit : M S unit)
    (instigator target : user_ref) (guild timestamp : Z) (s s1 s1' : S) :
  start s = (Return tt, s1) ->
  read_clock s1 = (Return timestamp, s1') ->
  marry_on start read_clock call rollback commit instigator target guild s
  = match call insert_marriage (marry_args instigator target guild timestamp) s1' with
    | (Return _, s2) =>
        match
          call insert_marriage_swapped (marry_args instigator target guild timestamp) s2
        with
        | (Return _, s3) => commit s3
        | (Raise e, s3) =>
            if is_Exception e
            then match rollback s3 with
                 | (Return _, s4) => (Raise e, s4)
                 | (Raise r, s4) => (Raise r, s4)
                 end
            else (Raise e, s3)
        end
    | (Raise e, s2) =>
        if is_Exception e
        then match rollback s2 with
             | (Return _, s3) => (Raise e, s3)
             | (Raise r, s3) => (Raise r, s3)
             end
        else (Raise e, s2)
    end.
Proof.
  intros Hstart Hclock. unfold marry_on. cbn zeta.
  rewrite bind_run, Hstart, bind_run, Hclock, bind_run, try_except_run, bind_run.
  fold (marry_args instigator target guild timestamp).
  destruct (call insert_marriage _ s1') as [[r1|e1] s2].
  - rewrite bind_run.
    destruct (call insert_marriage_swapped _ s2) as [[r2|e2] s3].
    + reflexivity.
    + destruct (is_Exception e2); [|reflexivity].
      rewrite bind_run. now destruct (rollback s3) as [[[]|r] s4].
  - destruct (is_Exception e1); [|reflexivity].
    rewrite bind_run. now destruct (rollback s2) as [[[]|r] s3].
Qed.

(** C5, amended.  Whatever the connection does: when a statement of the
    composite write raises E (the first, or the second after the first has
    returned) and E is an [Exception], [marry] runs the rollback of its
    transaction in the state the failed statement left; when the rollback
    returns, [marry] raises exactly E, in the state the rollback left; when
    the rollback itself raises R, [marry] raises R and E is lost.  An E that
    is not an [Exception] leaves [marry] as it is, with no rollback.  In no
    case does [marry] return, and the commit is not reached. *)
Theorem marry_reraises_unless_rollback_raises {S : Type}
    (start : M S unit) (read_clock : M S Z)
    (call : string -> list pyval -> M S (option (list Row))) (rollback commit : M S unit)
    (instigator target : user_ref) (guild timestamp : Z) (s s1 s1' s2 : S) (E : exn) :
  start s = (Return tt, s1) ->
  read_clock s1 = (Return timestamp, s1') ->
  call insert_marriage (marry_args instigator target guild timestamp) s1' = (Raise E, s2)
  \/ (exists r s',
        call insert_marriage (marry_args instigator target guild timestamp) s1'
        = (Return r, s')
        /\ call insert_marriage_swapped (marry_args instigator target guild timestamp) s'
           = (Raise E, s2)) ->
  let marry := marry_on start read_clock call rollback commit in
  (is_Exception E = true ->
   forall s3, rollback s2 = (Return tt, s3) ->
     marry instigator target guild s = (Raise E, s3))
  /\ (is_Exception E = true ->
      forall R s3, rollback s2 = (Raise R, s3) ->
        marry instigator target guild s = (Raise R, s3))
  /\ (is_Exception E = false ->
      marry instigator target guild s = (Raise E, s2)).
Proof.
  intros Hstart Hclock Hraise. cbn zeta.
  rewrite (marry_on_run _ _ _ _ _ _ _ _ _ _ _ _ Hstart Hclock).
  destruct Hraise as [-> | (r & s' & -> & ->)];
    (split; [|split]); try (intros -> R s3 ->; reflexivity);
    try (intros -> s3 ->; reflexivity); intros ->; reflexivity.
Qed.

Lemma marry_reraises_unless_rollback_raises_witness :
  exists w3,
    marry (UserId 1) (UserId 2) 9 Sample.lease_second_fails
    = (Raise (PostgresError UniqueViolationError), w3)
    /\ table (server w3) = [].
Proof.
  pose (w := Sample.lease_second_fails).
  pose (args := marry_args (UserId 1) (UserId 2) 9 (now (begun w))).
  pose (w1' := snd (__call__ insert_marriage args (begun w))).
  pose (w2 := snd (__call__ insert_marriage_swapped args w1')).
  pose (w3 := snd (transaction_rollback w2)).
  assert (Hstart : start_transaction w = (Return tt, begun w))
    by (vm_compute; reflexivity).
  assert (Hclock : utcnow (begun w) = (Return (now (begun w)), begun w)) by reflexivity.
  assert (Hfirst : __call__ insert_marriage args (begun w) = (Return None, w1'))
    by (vm_compute; reflexivity).
  assert (Hsecond : __call__ insert_marriage_swapped args w1'
                    = (Raise (PostgresError UniqueViolationError), w2))
    by (vm_compute; reflexivity).
  assert (Hrollback : transaction_rollback w2 = (Return tt, w3))
    by (vm_compute; reflexivity).
  destruct (marry_reraises_unless_rollback_raises
              start_transaction utcnow __call__ transaction_rollback commit_transaction
              (UserId 1) (UserId 2) 9 (now (begun w)) w (begun w) (begun w) w2
              (PostgresError UniqueViolationError) Hstart Hclock
              (or_intror (ex_intro _ None (ex_intro _ w1' (conj Hfirst Hsecond)))))
    as (Hreturns & _ & _).
  exists w3. split.
  - rewrite marry_is_marry_on. exact (Hreturns eq_refl w3 Hrollback).
  - vm_compute. reflexivity.
Defined.

(** C5 as stated does not hold: a connection lost during the second
    statement.  The statement raises [ConnectionDoesNotExistError]; the
    rollback that [marry] then awaits raises [InterfaceError], and that is
    the error the caller of [marry] gets. *)
Lemma marry_rollback_error_replaces_the_error :
  exists w1 w1' w2 w3,
    start_transaction Lost.lease = (Return tt, w1)
    /\ __call__ insert_marriage (marry_args (UserId 1) (UserId 2) 9 (now w1)) w1
       = (Return None, w1')
    /\ __call__ insert_marriage_swapped (marry_args (UserId 1) (UserId 2) 9 (now w1)) w1'
       = (Raise (PostgresError ConnectionDoesNotExistError), w2)
    /\ rollback_on_lost_connection w2
       = (Raise (InterfaceError "cannot perform operation: connection is closed"), w3)
    /\ marry_on start_transaction utcnow __call__ rollback_on_lost_connection
         commit_transaction (UserId 1) (UserId 2) 9 Lost.lease
       = (Raise (InterfaceError "cannot perform operation: connection is closed"), w3).
Proof.
  pose (w1 := begun Lost.lease).
  pose (args := marry_args (UserId 1) (UserId 2) 9 (now w1)).
  pose (w1' := snd (__call__ insert_marriage args w1)).
  pose (w2 := snd (__call__ insert_marriage_swapped args w1')).
  pose (w3 := snd (rollback_on_lost_connection w2)).
  exists w1, w1', w2, w3.
  split; [|split; [|split; [|split]]]; vm_compute; reflexivity.
Qed.

(** What [start_transaction] does on a lease that holds a connection,
    whatever its transaction marker. *)
Lemma start_transaction_held (w : World) (c : nat) :
  conn (self w) = Some c ->
  exists w1,
    start_transaction w = (Return tt, w1)
    /\ transaction (self w1) = Some (next_xact (server w))
    /\ xacts (server w1) = (next_xact (server w), table (server w)) :: xacts (server w)
    /\ table (server w1) = table (server w)
    /\ now w1 = now (begun w).
Proof.
  destruct w as [[c0 tx] cfg p lg [tbl xs nx fs] nw]; cbn; intros ->.
  eexists. repeat split.
Qed.

(** C10. Every [marry] that returns has appended exactly two rows, and both
    carry one timestamp, whatever the clock does between the statements: the
    time as read once, when the transaction had just been started and before
    either INSERT was sent. *)
Theorem marry_single_timestamp (instigator target : user_ref) (guild : Z) (w w' : World) :
  marry instigator target guild w = (Return tt, w') ->
  exists w1 r1 r2,
    start_transaction w = (Return tt, w1)
    /\ table (server w') = (table (server w) ++ [r1; r2])%list
    /\ (user_id r1, partner_id r1, guild_id r1)
       = (getattr_id instigator, getattr_id target, guild)
    /\ (user_id r2, partner_id r2, guild_id r2)
       = (getattr_id target, getattr_id instigator, guild)
    /\ timestamp r1 = now w1
    /\ timestamp r2 = now w1
    /\ timestamp r1 = timestamp r2.
Proof.
  intros Hrun.
  destruct (conn (self w)) as [c|] eqn:Hc.
  2: { destruct (marry_without_connection instigator target guild w Hc) as (e & He).
       rewrite He in Hrun. discriminate. }
  destruct (start_transaction_held w c Hc) as (w1 & Hstart & _ & _ & _ & Hnow).
  destruct (marry_outcome instigator target guild w c Hc) as (w2 & Hm & _).
  destruct (planned 0 (server w)) as [e0|]; [|destruct (planned 1 (server w)) as [e1|]];
    destruct Hm as (Hrun' & Htab & _); rewrite Hrun' in Hrun; try discriminate.
  injection Hrun as <-.
  exists w1; do 2 eexists.
  split; [exact Hstart|]. split; [exact Htab|].
  cbn. rewrite Hnow. repeat split.
Qed.

Lemma marry_single_timestamp_witness :
  exists w' r1 r2,
    marry (UserId 1) (User 2 "b") 9 Sample.lease = (Return tt, w')
    /\ table (server w') = [r1; r2]
    /\ timestamp r1 = timestamp r2.
Proof.
  destruct (marry_outcome (UserId 1) (User 2 "b") 9 Sample.lease 7 eq_refl)
    as (w' & (Hrun & _) & _).
  destruct (marry_single_timestamp (UserId 1) (User 2 "b") 9 Sample.lease w' Hrun)
    as (w1 & r1 & r2 & _ & Htab & _ & _ & _ & _ & Hts).
  exists w', r1, r2. split; [exact Hrun|]. split; [exact Htab | exact Hts].
Defined.

(** C4. A statement classified as a read (its text has [select] or
    [returning]) whose fetch gives no row makes [__call__] return the empty
    list, and a read never returns [None]; a statement classified as a
    mutation makes [__call__] return [None] once it has been executed. *)
Theorem call_result_by_kind (sql : string) (args : list pyval) (w : World) :
  let logged := set_logger (logger w ++ [LogDebug sql args])%list w in
  (expects_rows sql = true ->
   (forall w', conn_fetch sql args logged = (Return [], w') ->
               __call__ sql args w = (Return (Some []), w'))
   /\ (forall r w', __call__ sql args w = (Return r, w') -> r <> None))
  /\
  (expects_rows sql = false ->
   (forall w', conn_execute sql args logged = (Return tt, w') ->
               __call__ sql args w = (Return None, w'))
   /\ (forall r w', __call__ sql args w = (Return r, w') -> r = None)).
Proof.
  intros logged. split; intros Hkind.
  - split.
    + intros w' Hfetch. unfold __call__. rewrite Hkind.
      unfold mbind, M_bind, bind, log, modify. fold logged. rewrite Hfetch.
      reflexivity.
    + intros r w'. unfold __call__. rewrite Hkind.
      unfold mbind, M_bind, bind, log, modify. fold logged.
      destruct (conn_fetch sql args logged) as [[[|row rows]|e] w2]; cbn;
        intros H; inversion H; discriminate.
  - split.
    + intros w' Hexec. unfold __call__. rewrite Hkind.
      unfold mbind, M_bind, bind, log, modify. fold logged. rewrite Hexec.
      reflexivity.
    + intros r w'. unfold __call__. rewrite Hkind.
      unfold mbind, M_bind, bind, log, modify. fold logged.
      destruct (conn_execute sql args logged) as [[[]|e] w2]; cbn;
        intros H; inversion H; reflexivity.
Qed.

Lemma call_result_by_kind_witness :
  (exists w', __call__ select_by_guild [PyInt 9] Sample.lease = (Return (Some []), w'))
  /\ (exists w',
        __call__ insert_marriage [PyInt 1; PyInt 2; PyInt 9; PyDatetime 100] Sample.lease
        = (Return None, w')).
Proof.
  split.
  - destruct (call_result_by_kind select_by_guild [PyInt 9] Sample.lease) as [Hread _].
    destruct (Hread eq_refl) as [Hempty _].
    eexists. apply Hempty. reflexivity.
  - destruct (call_result_by_kind insert_marriage
                [PyInt 1; PyInt 2; PyInt 9; PyDatetime 100] Sample.lease) as [_ Hwrite].
    destruct (Hwrite eq_refl) as [Hnone _].
    eexists. apply Hnone. reflexivity.
Defined.

(** C6, as the claim has it, fails: on a lease whose transaction 0 is open,
    [start_transaction] returns, with a new transaction 1 in the marker,
    opened inside transaction 0. *)
Lemma start_transaction_twice_returns :
  transaction (self Sample.lease_in_transaction) = Some 0%nat
  /\ xacts (server Sample.lease_in_transaction) = [(0%nat, [])]
  /\ exists w',
       start_transaction Sample.lease_in_transaction = (Return tt, w')
       /\ transaction (self w') = Some 1%nat
       /\ xacts (server w') = [(1%nat, []); (0%nat, [])].
Proof.
  split; [reflexivity|]. split; [reflexivity|].
  eexists. split; [reflexivity|]. split; reflexivity.
Qed.

(** C6, amended. [start_transaction] does not look at the transaction
    marker: on a lease that holds a connection it returns whatever the
    marker holds, having put a new transaction in the marker in place of what
    was there and started it inside the transactions already open. *)
Theorem start_transaction_ignores_marker (w : World) (c : nat) (tx : option nat) :
  conn (self w) = Some c ->
  exists w',
    start_transaction (set_transaction tx w) = (Return tt, w')
    /\ transaction (self w') = Some (next_xact (server w))
    /\ xacts (server w') = (next_xact (server w), table (server w)) :: xacts (server w)
    /\ table (server w') = table (server w).
Proof.
  intros Hc.
  destruct (start_transaction_held (set_transaction tx w) c Hc)
    as (w1 & Hrun & Htx & Hx & Htab & _).
  exists w1. repeat split; assumption.
Qed.

Lemma start_transaction_ignores_marker_witness :
  exists w',
    start_transaction Sample.lease_in_transaction = (Return tt, w')
    /\ transaction (self w') = Some 1%nat
    /\ xacts (server w') = [(1%nat, []); (0%nat, [])].
Proof.
  destruct (start_transaction_ignores_marker Sample.lease_in_transaction 7 (Some 0%nat)
              eq_refl) as (w' & Hrun & Htx & Hx & _).
  exists w'. split; [exact Hrun|]. split; [exact Htx | exact Hx].
Defined.

(** C7. With the [enabled] entry of the configuration [False], [create_pool]
    logs at level critical and exits with status 1: it does not return,
    [asyncpg.create_pool] has no part in the result, and the class has the
    pool it had before (none at startup). *)
Theorem create_pool_disabled_is_fatal
    (asyncpg_create_pool : gmap string pyval -> outcome Pool)
    (cfg : gmap string pyval) (w : World) :
  cfg !! "enabled" = Some (PyBool false) ->
  create_pool asyncpg_create_pool cfg w
  = (Raise (SystemExit 1),
     set_logger
       (logger w
        ++ [LogCritical
              "Database create pool method is being run when the database is disabled"])%list
       (set_config (Some cfg) w))
  /\ pool (snd (create_pool asyncpg_create_pool cfg w)) = pool w.
Proof.
  intros Hen.
  assert (Hrun : create_pool asyncpg_create_pool cfg w
                 = (Raise (SystemExit 1),
                    set_logger
                      (logger w
                       ++ [LogCritical
                             "Database create pool method is being run when the database is disabled"])%list
                      (set_config (Some cfg) w))).
  { unfold create_pool, mbind, M_bind, bind, modify. rewrite Hen. reflexivity. }
  split; [exact Hrun|]. rewrite Hrun. reflexivity.
Qed.

Lemma create_pool_disabled_is_fatal_witness :
  fst (create_pool Sample.one_connection_pool Sample.disabled_config Sample.at_startup)
  = Raise (SystemExit 1)
  /\ pool (snd (create_pool Sample.one_connection_pool Sample.disabled_config
                  Sample.at_startup)) = None.
Proof.
  destruct (create_pool_disabled_is_fatal Sample.one_connection_pool Sample.disabled_config
              Sample.at_startup eq_refl) as [Hrun Hpool].
  split; [rewrite Hrun; reflexivity | exact Hpool].
Defined.

(** C8, as the claim has it, fails: the lease whose transaction 0 is still
    open is released without any error, and its connection is back in the
    pool. *)
Lemma disconnect_in_transaction_returns :
  transaction (self Sample.lease_in_transaction) = Some 0%nat
  /\ xacts (server Sample.lease_in_transaction) = [(0%nat, [])]
  /\ exists w',
       disconnect Sample.lease_in_transaction = (Return tt, w')
       /\ pool w' = Some (mkPool [7%nat])
       /\ conn (self w') = None.
Proof.
  split; [reflexivity|]. split; [reflexivity|].
  eexists. split; [reflexivity|]. split; reflexivity.
Qed.

(** C8, amended. [disconnect] does not look at the transaction marker: with
    a pool and a held connection it returns whatever the marker holds,
    having given the connection back to the pool and cleared [conn]; the
    marker is left as it was, and no error is reported. *)
Theorem disconnect_ignores_marker (w : World) (p : Pool) (c : nat) (tx : option nat) :
  pool w = Some p ->
  conn (self w) = Some c ->
  exists w',
    disconnect (set_transaction tx w) = (Return tt, w')
    /\ pool w' = Some (mkPool (idle p ++ [c])%list)
    /\ conn (self w') = None
    /\ transaction (self w') = tx.
Proof.
  destruct w as [[c0 tx0] cfg p0 lg s nw]; cbn; intros -> ->.
  eexists. repeat split.
Qed.

Lemma disconnect_ignores_marker_witness :
  exists w',
    disconnect Sample.lease_in_transaction = (Return tt, w')
    /\ pool w' = Some (mkPool [7%nat])
    /\ transaction (self w') = Some 0%nat.
Proof.
  destruct (disconnect_ignores_marker Sample.lease_in_transaction (mkPool []) 7
              (Some 0%nat) eq_refl eq_refl) as (w' & Hrun & Hpool & _ & Htx).
  exists w'. split; [exact Hrun|]. split; [exact Hpool | exact Htx].
Defined.

(** ** The channel receive loop and the shutdown of the cog *)

Section RedisHandlerProperties.

Context {P E : Type} (json_loads : string -> option P).

Implicit Types (w : Cog P E) (function : callable P E) (delivered : list string).

(** Taking a message: its decoding fails, or the handler raises on its
    payload, or the handler returns. *)
Lemma take_message function n raw w :
  match json_loads raw with
  | None => (get_json json_loads n raw ≫= invoke function n) w = (Raise (JSONDecodeError raw), w)
  | Some data =>
      exists r e',
        (get_json json_loads n raw ≫= invoke function n) w
        = (r, set_events
                (events w ++ Decoded n data :: Invoked n data
                   :: match r with Return _ => [Returned n] | Raise _ => [] end)%list
                (set_env e' w))
  end.
Proof.
  unfold get_json. destruct (json_loads raw) as [data|]; [|reflexivity].
  destruct w as [ch hs sub unsub lg lr bf e ev].
  unfold invoke, emit, on_env, mbind, M_bind, bind, mret, M_ret, ret, modify; cbn.
  destruct function as [f|f]; cbn;
    destruct (f data e) as [[[]|err] e'] eqn:Hf; cbn;
    [exists (Return tt), e' | exists (Raise err), e'
    |exists (Return tt), e' | exists (Raise err), e'];
    unfold set_events, set_env; cbn;
    rewrite <- ?app_assoc; cbn; reflexivity.
Qed.

Lemma take_message_raises function n raw w data e env' :
  json_loads raw = Some data ->
  run_handler function data (env w) = (Raise e, env') ->
  (get_json json_loads n raw ≫= invoke function n) w
  = (Raise e, set_events (events w ++ [Decoded n data; Invoked n data])%list (set_env env' w)).
Proof.
  intros Hdata Hraise. unfold get_json. rewrite Hdata.
  destruct w as [ch hs sub unsub lg lr bf e0 ev]. cbn in Hraise.
  unfold invoke, emit, on_env, mbind, M_bind, bind, mret, M_ret, ret, modify; cbn.
  destruct function as [f|f]; cbn in *; rewrite Hraise; cbn;
    unfold set_events, set_env; cbn; rewrite <- ?app_assoc; reflexivity.
Qed.

Lemma receive_loop_cons function n raw delivered w :
  receive_loop json_loads function n (raw :: delivered) w
  = match (get_json json_loads n raw ≫= invoke function n) w with
    | (Return _, w1) => receive_loop json_loads function (S n) delivered w1
    | (Raise e, w1) => (Raise e, w1)
    end.
Proof.
  cbn [receive_loop]. unfold mbind, M_bind, bind.
  destruct (get_json json_loads n raw w) as [[data|e] w1]; [|reflexivity].
  destruct (invoke function n data w1) as [[[]|e] w2]; reflexivity.
Qed.

Lemma receive_loop_app function n before after w :
  receive_loop json_loads function n (before ++ after) w
  = match receive_loop json_loads function n before w with
    | (Return _, w1) => receive_loop json_loads function (n + length before) after w1
    | (Raise e, w1) => (Raise e, w1)
    end.
Proof.
  revert n w. induction before as [|raw before IH]; intros n w.
  - cbn. now rewrite Nat.add_0_r.
  - rewrite <- app_comm_cons, !receive_loop_cons.
    destruct ((get_json json_loads n raw ≫= invoke function n) w) as [[[]|e] w1];
      [|reflexivity].
    rewrite IH. cbn [length]. now rewrite Nat.add_succ_r.
Qed.

(** The loop writes to the state of the bot and to the record of events,
    and to nothing else: in particular it logs nothing. *)
Lemma receive_loop_frame function n delivered w :
  let w' := snd (receive_loop json_loads function n delivered w) in
  log_handler w' = log_handler w /\ _channels w' = _channels w
  /\ subscribed w' = subscribed w /\ handlers w' = handlers w.
Proof.
  revert n w. induction delivered as [|raw delivered IH]; intros n w; cbn zeta.
  - cbn. auto.
  - rewrite receive_loop_cons.
    pose proof (take_message function n raw w) as Htake.
    destruct (json_loads raw) as [data|].
    + destruct Htake as (r & e' & ->). destruct r as [[]|e].
      * specialize (IH (S n)
          (set_events (events w ++ [Decoded n data; Invoked n data; Returned n])%list
             (set_env e' w))).
        cbn zeta in IH. destruct IH as (H1 & H2 & H3 & H4).
        rewrite H1, H2, H3, H4. cbn. auto.
      * cbn. auto.
    + rewrite Htake. cbn. auto.
Qed.

(** C2, amended. Nothing is caught inside the receive loop.  After the
    messages before it have been handled, a message whose decoding fails
    ends the loop with the decoding error, and a message on whose payload
    the handler raises ends the loop with the handler's error, the
    invocation left without its return; the error goes to the caller of the
    loop, nothing is logged, and no message delivered after the offending
    one is taken. *)
Theorem receive_loop_stops_at_error function n before offending after w w1 :
  receive_loop json_loads function n before w = (Return tt, w1) ->
  (json_loads offending = None ->
   receive_loop json_loads function n (before ++ offending :: after) w
   = (Raise (JSONDecodeError offending), w1)
   /\ log_handler w1 = log_handler w)
  /\
  (forall data e env',
     json_loads offending = Some data ->
     run_handler function data (env w1) = (Raise e, env') ->
     receive_loop json_loads function n (before ++ offending :: after) w
     = (Raise e,
        set_events
          (events w1
           ++ [Decoded (n + length before) data; Invoked (n + length before) data])%list
          (set_env env' w1))
     /\ log_handler w1 = log_handler w).
Proof.
  intros Hbefore.
  pose proof (receive_loop_frame function n before w) as Hframe.
  rewrite Hbefore in Hframe. cbn in Hframe. destruct Hframe as (Hlog & _).
  split.
  - intros Hbad. split; [|exact Hlog].
    rewrite receive_loop_app, Hbefore, receive_loop_cons.
    pose proof (take_message function (n + length before) offending w1) as Htake.
    rewrite Hbad in Htake. now rewrite Htake.
  - intros data e env' Hdata Hraise. split; [|exact Hlog].
    rewrite receive_loop_app, Hbefore, receive_loop_cons.
    now rewrite (take_message_raises function _ offending w1 data e env' Hdata Hraise).
Qed.

Lemma cancel_idempotent (t : Task) : cancel (cancel t) = cancel t.
Proof. destruct t as [name []]; reflexivity. Qed.

Lemma list_remove_head (x : string) (l : list string) :
  list_remove x (x :: l) = Some l.
Proof. cbn. now rewrite String.eqb_refl. Qed.

(** The loop over the copy of [_channels] empties [_channels] when it gets
    to its end, and leaves the tasks alone. *)
Lemma unsubscribe_each_drains (copy : list string) w w' :
  _channels w = copy ->
  unsubscribe_each copy w = (Return tt, w') ->
  _channels w' = [] /\ handlers w' = handlers w.
Proof.
  revert w. induction copy as [|channel rest IH]; intros w Hch Hrun.
  - cbn in Hrun. injection Hrun as <-. auto.
  - cbn [unsubscribe_each] in Hrun. rewrite bind_run in Hrun.
    destruct w as [ch hs sub unsub lg lr bf e ev]. cbn in Hch. subst ch.
    unfold run_until_complete, unsubscribe, bus_request in Hrun.
    rewrite bind_run in Hrun. cbn in Hrun.
    destruct lr; [discriminate|].
    destruct bf as [|[err|] bf]; cbn in Hrun; try discriminate.
    all: rewrite bind_run in Hrun; unfold channels_remove in Hrun;
      rewrite bind_run in Hrun; cbn [get _channels set_unsubscribed set_subscribed
        set_bus_faults] in Hrun;
      rewrite list_remove_head in Hrun; cbn in Hrun;
      apply IH in Hrun; [|reflexivity]; exact Hrun.
Qed.

(** C9. Once a call of [cog_unload] has returned, a second call returns as
    well and leaves everything as the first call left it: it sends no
    unsubscribe request, logs nothing, and changes no task. *)
Theorem cog_unload_idempotent w w' :
  cog_unload w = (Return tt, w') ->
  cog_unload w' = (Return tt, w')
  /\ unsubscribed (snd (cog_unload w')) = unsubscribed w'.
Proof.
  intros Hfirst.
  assert (Hstate : _channels w' = [] /\ handlers w' = map cancel (handlers w)).
  { unfold cog_unload in Hfirst. rewrite !bind_run in Hfirst. cbn in Hfirst.
    apply unsubscribe_each_drains in Hfirst; [|reflexivity]. exact Hfirst. }
  destruct Hstate as [Hch Hhs].
  assert (Hsecond : cog_unload w' = (Return tt, w')).
  { unfold cog_unload. rewrite !bind_run. cbn.
    destruct w' as [ch hs sub unsub lg lr bf e ev]. cbn in *. subst ch hs.
    unfold set_handlers. cbn.
    replace (map cancel (map cancel (handlers w))) with (map cancel (handlers w)).
    - reflexivity.
    - rewrite map_map. apply map_ext. intros t. symmetry. apply cancel_idempotent. }
  split; [exact Hsecond|]. now rewrite Hsecond.
Qed.

End RedisHandlerProperties.

(** C2, as the claim has it, fails.  The malformed message ["{"] ends the
    loop with the decoding error: the well-formed ["null"] delivered after it
    never reaches the handler, and nothing is logged.  In the same way the
    handler's [KeyError] on the payload of ["null"] ends the loop before
    ["true"] is taken. *)
Lemma receive_loop_ends_at_first_error :
  Sample.json_literal "{" = None
  /\ Sample.json_literal "null" = Some PyNone
  /\ receive_loop Sample.json_literal Sample.keep 0 ["{"; "null"] (Sample.cog [] [])
     = (Raise (JSONDecodeError "{"), Sample.cog [] [])
  /\ Sample.json_literal "true" = Some (PyBool true)
  /\ exists w',
       receive_loop Sample.json_literal Sample.need_bool 0 ["null"; "true"]
         (Sample.cog [] [])
       = (Raise (KeyError "user_id"), w')
       /\ env w' = []
       /\ invocations (events w') = [(0%nat, PyNone)]
       /\ log_handler w' = [].
Proof.
  split; [reflexivity|]. split; [reflexivity|]. split; [reflexivity|].
  split; [reflexivity|].
  eexists. split; [reflexivity|]. repeat split.
Qed.

Lemma receive_loop_stops_at_error_witness :
  (exists w1,
     receive_loop Sample.json_literal Sample.keep 0 ["true"; "{"; "null"] (Sample.cog [] [])
     = (Raise (JSONDecodeError "{"), w1)
     /\ env w1 = [PyBool true])
  /\ exists w2,
       receive_loop Sample.json_literal Sample.need_bool 0 ["true"; "null"; "false"]
         (Sample.cog [] [])
       = (Raise (KeyError "user_id"), w2)
       /\ env w2 = [PyBool true].
Proof.
  split.
  - edestruct (receive_loop_stops_at_error Sample.json_literal Sample.keep 0
                 ["true"] "{" ["null"] (Sample.cog [] [])) as [Hdecode _].
    + reflexivity.
    + eexists. split; [exact (proj1 (Hdecode eq_refl)) | reflexivity].
  - edestruct (receive_loop_stops_at_error Sample.json_literal Sample.need_bool 0
                 ["true"] "null" ["false"] (Sample.cog [] [])) as [_ Hhandler].
    + reflexivity.
    + edestruct (Hhandler PyNone (KeyError "user_id")) as [Hrun _].
      * reflexivity.
      * reflexivity.
      * eexists. split; [exact Hrun | reflexivity].
Defined.

Lemma cog_unload_idempotent_witness :
  exists w',
    cog_unload Sample.listening = (Return tt, w')
    /\ unsubscribed w' = ["DBLVote"; "ProposalCacheAdd"]
    /\ cog_unload w' = (Return tt, w').
Proof.
  destruct (cog_unload Sample.listening) as [r w'] eqn:Hfirst.
  assert (Hr : r = Return tt) by (vm_compute in Hfirst; congruence).
  subst r.
  exists w'. split; [reflexivity|].
  split.
  - vm_compute in Hfirst. injection Hfirst as <-. reflexivity.
  - exact (proj1 (cog_unload_idempotent Sample.listening w' Hfirst)).
Defined.

(** * Further properties *)

(** ** How [__call__] tells a read from a mutation *)

Lemma append_cons (c : ascii) (a b : string) : String c a ++ b = String c (a ++ b).
Proof. reflexivity. Qed.

Lemma append_empty (b : string) : "" ++ b = b.
Proof. reflexivity. Qed.

Lemma casefold_app (a b : string) : casefold (a ++ b) = casefold a ++ casefold b.
Proof.
  induction a as [|c a IH]; [reflexivity|].
  rewrite append_cons. cbn [casefold]. now rewrite append_cons, IH.
Qed.

Lemma prefix_app (n b : string) : String.prefix n (n ++ b) = true.
Proof.
  induction n as [|c n IH]; [now destruct b|].
  rewrite append_cons. cbn [String.prefix].
  destruct (ascii_dec c c) as [_|Hne]; [exact IH | now destruct Hne].
Qed.

Lemma prefix_split (n h : string) :
  String.prefix n h = true -> exists b, h = n ++ b.
Proof.
  revert h. induction n as [|c n IH]; intros h.
  - intros _. now exists h.
  - destruct h as [|c' h]; cbn [String.prefix]; [discriminate|].
    destruct (ascii_dec c c') as [<-|_]; [|discriminate].
    intros Hp. destruct (IH h Hp) as [b ->]. now exists b.
Qed.

Lemma contains_app (n a b : string) : contains n (a ++ n ++ b) = true.
Proof.
  induction a as [|c a IH].
  - rewrite append_empty. destruct (n ++ b) eqn:Hnb; cbn [contains];
      rewrite <- Hnb, prefix_app; reflexivity.
  - rewrite append_cons. cbn [contains]. rewrite IH. apply orb_true_r.
Qed.

Lemma contains_split (n h : string) :
  contains n h = true -> exists a b, h = a ++ n ++ b.
Proof.
  induction h as [|c h IH]; cbn [contains]; intros H; apply orb_true_iff in H.
  - destruct H as [H|H]; [|discriminate].
    destruct (prefix_split _ _ H) as [b ->]. now exists "", b.
  - destruct H as [H|H].
    + destruct (prefix_split _ _ H) as [b Hb]. exists "", b. now rewrite Hb.
    + destruct (IH H) as (a & b & ->). now exists (String c a), b.
Qed.

Lemma casefold_split (s x y : string) :
  casefold s = x ++ y ->
  exists s1 s2, s = s1 ++ s2 /\ casefold s1 = x /\ casefold s2 = y.
Proof.
  revert s. induction x as [|c x IH]; intros s.
  - rewrite append_empty. intros H. now exists "", s.
  - rewrite append_cons. destruct s as [|c' s]; cbn [casefold]; [discriminate|].
    intros H. injection H as Hc Hs.
    destruct (IH s Hs) as (s1 & s2 & -> & H1 & H2).
    exists (String c' s1), s2. cbn [casefold]. now rewrite Hc, H1.
Qed.

(** What [expects_rows] computes: whether the word select or returning
    stands somewhere in the text, in any mix of upper and lower case. *)
Lemma expects_rows_iff_has_keyword (sql : string) :
  expects_rows sql = true <-> has_keyword sql.
Proof.
  unfold expects_rows, has_keyword. rewrite orb_true_iff. split.
  - intros [H|H]; apply contains_split in H; destruct H as (a & b & H);
      apply casefold_split in H; destruct H as (s1 & s2 & -> & _ & H);
      apply casefold_split in H; destruct H as (k & s3 & -> & Hk & _);
      exists s1, k, s3; auto.
  - intros (a & k & b & -> & [Hk|Hk]); rewrite !casefold_app, Hk;
      [left|right]; apply contains_app.
Qed.

Lemma log_run (r : log_record) (w : World) :
  log r w = (Return tt, set_logger (logger w ++ [r])%list w).
Proof. reflexivity. Qed.

(** X1. On a statement in ASCII text, [__call__] logs the statement and then
    calls [fetch] when the word select or returning stands somewhere in the
    text, in any mix of upper and lower case, and [execute] when it does not.
    In the first case it gives back the list that [fetch] gave, empty or not,
    and never [None]; in the second it gives back [None].  So a mutation that
    names a table [Selections], or has a subquery, is fetched as a read. *)
Theorem call_fetches_iff_keyword_anywhere (sql : string) (args : list pyval) (w : World) :
  is_ascii sql = true ->
  let logged := set_logger (logger w ++ [LogDebug sql args])%list w in
  (has_keyword sql ->
   __call__ sql args w
   = match conn_fetch sql args logged with
     | (Return rows, w') => (Return (Some rows), w')
     | (Raise e, w') => (Raise e, w')
     end)
  /\ (~ has_keyword sql ->
      __call__ sql args w
      = match conn_execute sql args logged with
        | (Return _, w') => (Return None, w')
        | (Raise e, w') => (Raise e, w')
        end).
Proof.
  intros _. cbn zeta. split; intros Hkey.
  - apply expects_rows_iff_has_keyword in Hkey.
    unfold __call__. rewrite bind_run, log_run, Hkey, bind_run.
    destruct (conn_fetch sql args _) as [[[|row rows]|e] w']; reflexivity.
  - assert (Hno : expects_rows sql = false).
    { destruct (expects_rows sql) eqn:Hex; [|reflexivity].
      now apply expects_rows_iff_has_keyword in Hex. }
    unfold __call__. rewrite bind_run, log_run, Hno, bind_run.
    destruct (conn_execute sql args _) as [[[]|e] w']; reflexivity.
Qed.

Lemma call_fetches_iff_keyword_anywhere_witness :
  (let sql := "UPDATE Selections SET n = $1" in
   __call__ sql [PyInt 1] Sample.lease
   = match
       conn_fetch sql [PyInt 1]
         (set_logger (logger Sample.lease ++ [LogDebug sql [PyInt 1]])%list Sample.lease)
     with
     | (Return rows, w') => (Return (Some rows), w')
     | (Raise e, w') => (Raise e, w')
     end)
  /\ (exists w', __call__ select_by_guild [PyInt 9] Sample.lease = (Return (Some []), w'))
  /\ (exists w',
        __call__ insert_marriage (marry_args (UserId 1) (UserId 2) 9 0) Sample.lease
        = (Return None, w')).
Proof.
  split; [|split].
  - destruct (call_fetches_iff_keyword_anywhere "UPDATE Selections SET n = $1" [PyInt 1]
                Sample.lease eq_refl) as [Hfetch _].
    cbn zeta. apply Hfetch.
    exists "UPDATE ", "Select", "ions SET n = $1". split; [reflexivity | now left].
  - destruct (call_fetches_iff_keyword_anywhere select_by_guild [PyInt 9] Sample.lease
                eq_refl) as [Hfetch _].
    rewrite Hfetch.
    + eexists. vm_compute. reflexivity.
    + apply expects_rows_iff_has_keyword. vm_compute. reflexivity.
  - destruct (call_fetches_iff_keyword_anywhere
                insert_marriage (marry_args (UserId 1) (UserId 2) 9 0) Sample.lease eq_refl)
      as [_ Hexecute].
    rewrite Hexecute.
    + eexists. vm_compute. reflexivity.
    + intros Hkey. apply expects_rows_iff_has_keyword in Hkey.
      vm_compute in Hkey. discriminate.
Defined.

(** ** [create_pool] *)

(** X2. Without an [enabled] entry in the configuration, [create_pool] raises
    [KeyError('enabled')]: the configuration has already been stored in the
    class, no pool is made and the pool of the class is as it was. *)
Theorem create_pool_without_enabled
    (asyncpg_create_pool : gmap string pyval -> outcome Pool)
    (cfg : gmap string pyval) (w : World) :
  cfg !! "enabled" = None ->
  exists w',
    create_pool asyncpg_create_pool cfg w = (Raise (KeyError "enabled"), w')
    /\ config w' = Some cfg
    /\ pool w' = pool w
    /\ logger w' = logger w.
Proof.
  intros Hen. eexists. split.
  - unfold create_pool. rewrite bind_run. cbn. rewrite Hen. reflexivity.
  - repeat split.
Qed.

Lemma create_pool_without_enabled_witness :
  exists w',
    create_pool Sample.one_connection_pool Scenario.config_without_enabled
      Sample.at_startup
    = (Raise (KeyError "enabled"), w')
    /\ pool w' = None.
Proof.
  edestruct (create_pool_without_enabled Sample.one_connection_pool
               Scenario.config_without_enabled Sample.at_startup)
    as (w' & Hrun & _ & Hpool & _).
  - vm_compute. reflexivity.
  - exists w'. split; [exact Hrun | exact Hpool].
Defined.

(** X3. Only the value [False] itself disables the database.  With any other
    [enabled] entry, falsy ones such as 0 and [None] included,
    [asyncpg.create_pool] is given the configuration without that entry, and
    what it returns becomes the pool of the class or what it raises is
    raised, the pool then being as it was; the configuration kept by the
    class still has the entry. *)
Theorem create_pool_when_not_False
    (asyncpg_create_pool : gmap string pyval -> outcome Pool)
    (cfg : gmap string pyval) (enabled : pyval) (w : World) :
  cfg !! "enabled" = Some enabled ->
  enabled <> PyBool false ->
  exists kwargs w',
    kwargs !! "enabled" = None
    /\ (forall k, k <> "enabled" -> kwargs !! k = cfg !! k)
    /\ create_pool asyncpg_create_pool cfg w
       = (match asyncpg_create_pool kwargs with
          | Return _ => Return tt
          | Raise e => Raise e
          end, w')
    /\ pool w' = match asyncpg_create_pool kwargs with
                 | Return p => Some p
                 | Raise _ => pool w
                 end
    /\ config w' = Some cfg
    /\ logger w' = logger w.
Proof.
  intros Hen Hne.
  assert (Hf : is_False enabled = false).
  { destruct enabled as [|[]| | |]; try reflexivity. now destruct Hne. }
  exists (delete "enabled" cfg).
  assert (Hrun : create_pool asyncpg_create_pool cfg w
                 = match asyncpg_create_pool (delete "enabled" cfg) with
                   | Return p => (Return tt, set_pool (Some p) (set_config (Some cfg) w))
                   | Raise e => (Raise e, set_config (Some cfg) w)
                   end).
  { unfold create_pool. rewrite bind_run. cbn. rewrite Hen, Hf. rewrite bind_run. cbn.
    destruct (asyncpg_create_pool (delete "enabled" cfg)); reflexivity. }
  destruct (asyncpg_create_pool (delete "enabled" cfg)) as [p|e];
    eexists; (split; [apply lookup_delete_eq|]);
    (split; [intros k Hk; now apply lookup_delete_ne|]);
    (split; [exact Hrun|]); repeat split.
Qed.

Lemma create_pool_when_not_False_witness :
  exists w',
    create_pool Sample.one_connection_pool Scenario.config_enabled_zero Sample.at_startup
    = (Return tt, w')
    /\ pool w' = Some (mkPool [0%nat]).
Proof.
  edestruct (create_pool_when_not_False Sample.one_connection_pool
               Scenario.config_enabled_zero (PyInt 0) Sample.at_startup)
    as (kwargs & w' & _ & _ & Hrun & Hpool & _).
  - vm_compute. reflexivity.
  - discriminate.
  - exists w'. split; [exact Hrun | exact Hpool].
Defined.

(** ** Transactions through the wrapper *)

Lemma close_xact_fresh (s : Session) :
  xacts_fresh s -> close_xact (next_xact s) (xacts s) = None.
Proof.
  unfold xacts_fresh. generalize (next_xact s) as n.
  induction (xacts s) as [|[id snapshot] outer IH]; intros n Hfresh; [reflexivity|].
  inversion Hfresh as [|x l Hid Houter]; subst. cbn in *.
  destruct (Nat.eqb_spec id n) as [->|_]; [lia | now apply IH].
Qed.

(** X4. The transaction marker is cleared by a commit only.  When a statement
    of [marry] fails, on a session whose open transactions are older than
    the one [marry] starts, the lease is left with the rolled-back
    transaction in its marker: that transaction is no longer open, and a
    [commit_transaction] on the lease raises an [InterfaceError], the table
    staying as it was. *)
Theorem marry_failure_keeps_marker (instigator target : user_ref) (guild : Z)
    (w : World) (c : nat) (e : pg_error) :
  conn (self w) = Some c ->
  xacts_fresh (server w) ->
  planned 0 (server w) = Some e
  \/ (planned 0 (server w) = None /\ planned 1 (server w) = Some e) ->
  exists w' id,
    marry instigator target guild w = (Raise (PostgresError e), w')
    /\ transaction (self w') = Some id
    /\ close_xact id (xacts (server w')) = None
    /\ exists msg w'',
         commit_transaction w' = (Raise (InterfaceError msg), w'')
         /\ table (server w'') = table (server w)
         /\ transaction (self w'') = Some id.
Proof.
  intros Hc Hfresh Hplan.
  destruct (marry_outcome instigator target guild w c Hc) as (w' & Hm & Hx).
  assert (Hfail : marry instigator target guild w = (Raise (PostgresError e), w')
                  /\ table (server w') = table (server w)
                  /\ transaction (self w') = Some (next_xact (server w))).
  { destruct Hplan as [H0 | [H0 H1]]; [rewrite H0 in Hm | rewrite H0, H1 in Hm]; exact Hm. }
  destruct Hfail as (Hrun & Htab & Htx).
  assert (Hclosed : close_xact (next_xact (server w)) (xacts (server w')) = None).
  { rewrite Hx. now apply close_xact_fresh. }
  exists w', (next_xact (server w)).
  split; [exact Hrun|]. split; [exact Htx|]. split; [exact Hclosed|].
  destruct w' as [[c' tx'] cfg' p' lg' s' cl' aw']. cbn in Htab, Htx, Hclosed. subst tx'.
  unfold commit_transaction, await, xact_commit.
  rewrite bind_run. cbn -[close_xact]. rewrite bind_run. cbn -[close_xact].
  rewrite Hclosed. do 2 eexists. split; [reflexivity|]. split; [exact Htab | reflexivity].
Qed.

Lemma marry_failure_keeps_marker_witness :
  exists w',
    marry (UserId 1) (UserId 2) 9 Sample.lease_first_fails
    = (Raise (PostgresError UniqueViolationError), w')
    /\ transaction (self w') = Some 0%nat
    /\ xacts (server w') = [].
Proof.
  destruct (marry_failure_keeps_marker (UserId 1) (UserId 2) 9 Sample.lease_first_fails 7
              UniqueViolationError eq_refl (Forall_nil_2 _) (or_introl eq_refl))
    as (w' & id & Hrun & Htx & _).
  exists w'. split; [exact Hrun|].
  pose proof Hrun as Hrun'. vm_compute in Hrun'. injection Hrun' as <-.
  split; reflexivity.
Defined.

(** X5. A transaction that is started and committed at once leaves the table
    and the enclosing transactions as they were, and the marker [None],
    whatever the marker held before. *)
Theorem start_commit_round_trip (w : World) (c : nat) :
  conn (self w) = Some c ->
  exists w',
    (start_transaction ≫= fun _ => commit_transaction) w = (Return tt, w')
    /\ table (server w') = table (server w)
    /\ xacts (server w') = xacts (server w)
    /\ committed (server w') = committed (server w)
    /\ transaction (self w') = None
    /\ conn (self w') = Some c.
Proof.
  intros Hc. rewrite bind_run, (start_transaction_run w c Hc).
  erewrite commit_transaction_run by reflexivity.
  eexists. split; [reflexivity|]. repeat split. exact Hc.
Qed.

Lemma start_commit_round_trip_witness :
  exists w',
    (start_transaction ≫= fun _ => commit_transaction) Sample.lease_in_transaction
    = (Return tt, w')
    /\ xacts (server w') = [(0%nat, [])]
    /\ transaction (self w') = None.
Proof.
  destruct (start_commit_round_trip Sample.lease_in_transaction 7 eq_refl)
    as (w' & Hrun & _ & Hx & _ & Htx & _).
  exists w'. split; [exact Hrun|]. split; [exact Hx | exact Htx].
Defined.

(** X6. Transactions cannot be nested through the wrapper.  After two
    [start_transaction] in a row the first commit ends the inner one and
    clears the marker; the second commit then raises [AttributeError] and
    the outer transaction stays open, its changes read by no other
    connection. *)
Theorem nested_start_orphans_outer (w : World) (c : nat) :
  conn (self w) = Some c ->
  exists w2 w3 msg,
    (start_transaction ≫= fun _ => start_transaction) w = (Return tt, w2)
    /\ commit_transaction w2 = (Return tt, w3)
    /\ transaction (self w3) = None
    /\ xacts (server w3) = (next_xact (server w), table (server w)) :: xacts (server w)
    /\ commit_transaction w3 = (Raise (AttributeError msg), w3)
    /\ committed (server w3) = committed (server w).
Proof.
  intros Hc.
  rewrite bind_run, (start_transaction_run w c Hc).
  rewrite (start_transaction_run (begun w) c Hc).
  do 3 eexists. split; [reflexivity|].
  split; [erewrite commit_transaction_run by reflexivity; reflexivity|].
  split; [reflexivity|]. split; [reflexivity|].
  split; [reflexivity|].
  unfold committed. cbn.
  destruct (xacts (server w)) as [|[id snapshot] outer]; reflexivity.
Qed.

Lemma nested_start_orphans_outer_witness :
  exists w3 msg,
    (start_transaction ≫= fun _ => start_transaction ≫= fun _ => commit_transaction)
      Sample.lease = (Return tt, w3)
    /\ commit_transaction w3 = (Raise (AttributeError msg), w3)
    /\ xacts (server w3) = [(0%nat, [])].
Proof.
  destruct (nested_start_orphans_outer Sample.lease 7 eq_refl)
    as (w2 & w3 & msg & Hstart & Hcommit & _ & Hx & Hagain & _).
  exists w3, msg. split; [|split; [exact Hagain | exact Hx]].
  rewrite bind_run in Hstart |- *.
  destruct (start_transaction Sample.lease) as [[[]|e] w1]; [|discriminate].
  rewrite bind_run. rewrite Hstart. exact Hcommit.
Defined.

(** ** Leases and the pool *)

(** X7. A lease that has been released is of no use: every statement sent
    through it raises [AttributeError] without reaching the session, and so
    do [start_transaction] and [marry]. *)
Theorem released_lease_raises (w w1 : World) :
  disconnect w = (Return tt, w1) ->
  (forall sql args, exists msg w2,
      __call__ sql args w1 = (Raise (AttributeError msg), w2)
      /\ server w2 = server w1 /\ awaits w2 = awaits w1)
  /\ (exists msg, start_transaction w1 = (Raise (AttributeError msg), w1))
  /\ (forall instigator target guild, exists msg,
        marry instigator target guild w1 = (Raise (AttributeError msg), w1)).
Proof.
  intros Hd.
  assert (Hc : conn (self w1) = None).
  { destruct w as [[c0 tx] cfg [p|] lg s cl aw]; [|discriminate].
    destruct c0 as [c0|]; [|discriminate].
    cbn in Hd. injection Hd as <-. reflexivity. }
  split; [|split].
  - intros sql args.
    destruct w1 as [[c1 tx1] cfg1 p1 lg1 s1 cl1 aw1]. cbn in Hc. subst c1.
    unfold __call__. rewrite bind_run. cbn.
    destruct (expects_rows sql); do 2 eexists; (split; [reflexivity|]); split; reflexivity.
  - eexists. exact (start_transaction_without_connection w1 Hc).
  - intros instigator target guild. eexists. unfold marry.
    now rewrite bind_run, (start_transaction_without_connection w1 Hc).
Qed.

Lemma released_lease_raises_witness :
  exists w1 msg w2,
    disconnect Sample.lease = (Return tt, w1)
    /\ __call__ select_by_guild [PyInt 9] w1 = (Raise (AttributeError msg), w2).
Proof.
  destruct (disconnect Sample.lease) as [r w1] eqn:Hd.
  assert (Hr : r = Return tt) by (vm_compute in Hd; congruence). subst r.
  destruct (released_lease_raises Sample.lease w1 Hd) as [Hcall _].
  destruct (Hcall select_by_guild [PyInt 9]) as (msg & w2 & Hrun & _).
  exists w1, msg, w2. split; [reflexivity | exact Hrun].
Defined.

(** X8. A lease is released once: a second [disconnect] hands the pool no
    connection, raises [InterfaceError] and changes nothing. *)
Theorem disconnect_twice_raises (w w1 : World) :
  disconnect w = (Return tt, w1) ->
  exists msg, disconnect w1 = (Raise (InterfaceError msg), w1).
Proof.
  intros Hd.
  destruct w as [[c0 tx] cfg [p|] lg s cl aw]; [|discriminate].
  destruct c0 as [c0|]; [|discriminate].
  cbn in Hd. injection Hd as <-. eexists. reflexivity.
Qed.

Lemma disconnect_twice_raises_witness :
  exists w1 msg,
    disconnect Sample.lease = (Return tt, w1)
    /\ disconnect w1 = (Raise (InterfaceError msg), w1).
Proof.
  destruct (disconnect Sample.lease) as [r w1] eqn:Hd.
  assert (Hr : r = Return tt) by (vm_compute in Hd; congruence). subst r.
  destruct (disconnect_twice_raises Sample.lease w1 Hd) as (msg & Hagain).
  exists w1, msg. split; [reflexivity | exact Hagain].
Defined.

Lemma pool_acquire_last (w : World) (p : Pool) (others : list nat) (c : nat) :
  pool w = Some p ->
  idle p = (others ++ [c])%list ->
  pool_acquire w
  = Some (Return c, set_awaits (S (awaits w)) (set_pool (Some (mkPool others)) w)).
Proof.
  intros Hp Hidle. unfold pool_acquire. rewrite Hp, Hidle, rev_app_distr. cbn.
  now rewrite rev_involutive.
Qed.

(** X9. [get_connection] followed by [disconnect] is a round trip on the
    pool: the lease gets the connection that was released last, with no
    transaction in its marker, and after the release the pool holds the same
    idle connections in the same order and the lease holds none. *)
Theorem get_connection_disconnect_round_trip (w : World) (p : Pool)
    (others : list nat) (c : nat) :
  pool w = Some p ->
  idle p = (others ++ [c])%list ->
  exists w1 w2,
    get_connection w = Some (Return tt, w1)
    /\ self w1 = mkDatabaseConnection (Some c) None
    /\ pool w1 = Some (mkPool others)
    /\ disconnect w1 = (Return tt, w2)
    /\ pool w2 = Some p
    /\ self w2 = mkDatabaseConnection None None.
Proof.
  intros Hp Hidle. unfold get_connection.
  rewrite (pool_acquire_last w p others c Hp Hidle).
  do 2 eexists. split; [reflexivity|]. split; [reflexivity|]. split; [reflexivity|].
  split; [reflexivity|]. cbn. destruct p as [l]. cbn in Hidle. subst l. split; reflexivity.
Qed.

Lemma get_connection_disconnect_round_trip_witness :
  exists w1 w2,
    get_connection Scenario.pool_of_two
    = Some (Return tt, w1)
    /\ conn (self w1) = Some 5%nat
    /\ disconnect w1 = (Return tt, w2)
    /\ pool w2 = Some (mkPool [3; 5]%nat).
Proof.
  destruct (get_connection_disconnect_round_trip
              Scenario.pool_of_two
              (mkPool [3; 5]%nat) [3%nat] 5 eq_refl eq_refl)
    as (w1 & w2 & Hget & Hself & _ & Hd & Hpool & _).
  exists w1, w2. split; [exact Hget|]. split; [now rewrite Hself|].
  split; [exact Hd | exact Hpool].
Defined.

(** X10. [__aenter__] and [__aexit__] are the same round trip on the object
    at hand, whatever [__aexit__] is told about the block; unlike
    [get_connection] they leave the transaction marker of the object as it
    was, a stale one included. *)
Theorem aenter_aexit_round_trip (w : World) (p : Pool) (others : list nat) (c : nat)
    (exc : option exn) :
  pool w = Some p ->
  idle p = (others ++ [c])%list ->
  exists w1 w2,
    __aenter__ w = Some (Return tt, w1)
    /\ self w1 = mkDatabaseConnection (Some c) (transaction (self w))
    /\ pool w1 = Some (mkPool others)
    /\ __aexit__ exc w1 = (Return tt, w2)
    /\ pool w2 = Some p
    /\ self w2 = mkDatabaseConnection None (transaction (self w)).
Proof.
  intros Hp Hidle. unfold __aenter__.
  rewrite (pool_acquire_last w p others c Hp Hidle).
  do 2 eexists. split; [reflexivity|]. split; [reflexivity|]. split; [reflexivity|].
  split; [reflexivity|]. cbn. destruct p as [l]. cbn in Hidle. subst l. split; reflexivity.
Qed.

Lemma aenter_aexit_round_trip_witness :
  exists w1 w2,
    __aenter__ Scenario.pool_of_two
    = Some (Return tt, w1)
    /\ conn (self w1) = Some 5%nat
    /\ __aexit__ (Some (KeyError "k")) w1 = (Return tt, w2)
    /\ pool w2 = Some (mkPool [3; 5]%nat).
Proof.
  destruct (aenter_aexit_round_trip
              Scenario.pool_of_two
              (mkPool [3; 5]%nat) [3%nat] 5 (Some (KeyError "k")) eq_refl eq_refl)
    as (w1 & w2 & Hin & Hself & _ & Hout & Hpool & _).
  exists w1, w2. split; [exact Hin|]. split; [now rewrite Hself|].
  split; [exact Hout | exact Hpool].
Defined.

(** Before [create_pool] has run there is no pool to acquire from:
    [get_connection] and [__aenter__] raise [AttributeError] and change
    nothing; with a pool whose connections are all in use they stay
    suspended. *)
Theorem acquire_without_pool (w : World) :
  (pool w = None ->
   exists msg,
     get_connection w = Some (Raise (AttributeError msg), w)
     /\ __aenter__ w = Some (Raise (AttributeError msg), w))
  /\ (pool w = Some (mkPool []) -> get_connection w = None /\ __aenter__ w = None).
Proof.
  unfold get_connection, __aenter__, pool_acquire. split; intros ->.
  - eexists. split; reflexivity.
  - split; reflexivity.
Qed.

Lemma acquire_without_pool_witness :
  exists msg, get_connection Sample.at_startup = Some (Raise (AttributeError msg), Sample.at_startup).
Proof.
  destruct (proj1 (acquire_without_pool Sample.at_startup) eq_refl) as (msg & Hget & _).
  exists msg. exact Hget.
Defined.

(** ** The shutdown of the cog, channel by channel *)

Section CogUnload.

Context {P E : Type}.

Implicit Types (w : Cog P E).

Lemma bus_planned_head w :
  bus_planned 0 w = match head (bus_faults w) with Some (Some e) => Some e | _ => None end.
Proof. unfold bus_planned. now destruct (bus_faults w) as [|[e|] fs]. Qed.

(** One turn of the second loop of [cog_unload], outside a running event
    loop. *)
Lemma unsubscribe_turn (channel : string) (rest : list string) w :
  _channels w = channel :: rest ->
  loop_running w = false ->
  exists w1,
    (forall k, bus_planned k w1 = bus_planned (S k) w)
    /\ handlers w1 = handlers w
    /\ (env w1 = env w /\ events w1 = events w)
    /\ loop_running w1 = false
    /\ match bus_planned 0 w with
       | Some e =>
           unsubscribe_each (channel :: rest) w = (Raise e, w1)
           /\ _channels w1 = channel :: rest
           /\ unsubscribed w1 = unsubscribed w
           /\ log_handler w1 = log_handler w
       | None =>
           unsubscribe_each (channel :: rest) w = unsubscribe_each rest w1
           /\ _channels w1 = rest
           /\ unsubscribed w1 = (unsubscribed w ++ [channel])%list
           /\ log_handler w1 = (log_handler w ++ [unsubscribing channel])%list
       end.
Proof.
  destruct w as [ch hs sub unsub lg lr bf e ev]. cbn. intros -> ->.
  rewrite bus_planned_head. cbn [unsubscribe_each].
  rewrite !bind_run. unfold run_until_complete. rewrite bind_run. cbn.
  unfold unsubscribe, bus_request. cbn.
  destruct bf as [|[err|] bf]; cbn.
  2: { eexists. split; [|split; [|split; [|split; [|split; [reflexivity|]]]]];
         try reflexivity; repeat split. }
  all: unfold channels_remove; rewrite !bind_run; cbn;
    rewrite String.eqb_refl; cbn;
    eexists; (split; [|split; [|split; [|split; [|split; [reflexivity|]]]]]);
    try reflexivity; repeat split.
Qed.

Lemma unsubscribe_each_all (copy : list string) w :
  _channels w = copy ->
  loop_running w = false ->
  (forall k, (k < length copy)%nat -> bus_planned k w = None) ->
  exists w',
    unsubscribe_each copy w = (Return tt, w')
    /\ _channels w' = []
    /\ unsubscribed w' = (unsubscribed w ++ copy)%list
    /\ log_handler w' = (log_handler w ++ map unsubscribing copy)%list
    /\ handlers w' = handlers w
    /\ env w' = env w
    /\ events w' = events w.
Proof.
  revert w. induction copy as [|channel rest IH]; intros w Hch Hloop Hok.
  - exists w. cbn. rewrite !app_nil_r. repeat split; auto.
  - destruct (unsubscribe_turn channel rest w Hch Hloop)
      as (w1 & Hplan & Hhs & [Henv Hev] & Hloop1 & Hturn).
    rewrite (Hok 0%nat) in Hturn by (cbn; lia).
    destruct Hturn as (Hrun & Hch1 & Hun & Hlog).
    destruct (IH w1 Hch1 Hloop1)
      as (w' & Hrun' & Hch' & Hun' & Hlog' & Hhs' & Henv' & Hev').
    { intros k Hk. rewrite Hplan. apply Hok. cbn. lia. }
    exists w'. rewrite Hrun, Hrun', Hun', Hlog', Hhs', Henv', Hev', Hun, Hlog, Hhs.
    cbn. rewrite <- !app_assoc. repeat split; auto.
Qed.

Lemma unsubscribe_each_stops (done : list string) (channel : string)
    (rest : list string) (e : exn) w :
  _channels w = (done ++ channel :: rest)%list ->
  loop_running w = false ->
  (forall k, (k < length done)%nat -> bus_planned k w = None) ->
  bus_planned (length done) w = Some e ->
  exists w',
    unsubscribe_each (done ++ channel :: rest) w = (Raise e, w')
    /\ _channels w' = channel :: rest
    /\ unsubscribed w' = (unsubscribed w ++ done)%list
    /\ log_handler w' = (log_handler w ++ map unsubscribing done)%list
    /\ handlers w' = handlers w.
Proof.
  revert w. induction done as [|d done IH]; intros w Hch Hloop Hok Hfail.
  - destruct (unsubscribe_turn channel rest w Hch Hloop)
      as (w1 & _ & Hhs & _ & _ & Hturn).
    cbn in Hfail. rewrite Hfail in Hturn. destruct Hturn as (Hrun & Hch1 & Hun & Hlog).
    exists w1. cbn. rewrite !app_nil_r. auto.
  - destruct (unsubscribe_turn d (done ++ channel :: rest) w Hch Hloop)
      as (w1 & Hplan & Hhs & _ & Hloop1 & Hturn).
    rewrite (Hok 0%nat) in Hturn by (cbn; lia).
    destruct Hturn as (Hrun & Hch1 & Hun & Hlog).
    destruct (IH w1 Hch1 Hloop1) as (w' & Hrun' & Hch' & Hun' & Hlog' & Hhs').
    { intros k Hk. rewrite Hplan. apply Hok. cbn. lia. }
    { rewrite Hplan. exact Hfail. }
    exists w'. rewrite <- app_comm_cons, Hrun, Hrun', Hun', Hlog', Hhs', Hun, Hlog, Hhs.
    cbn. rewrite <- !app_assoc. auto.
Qed.

Lemma cog_unload_run w :
  cog_unload w
  = unsubscribe_each (_channels w) (set_handlers (map cancel (handlers w)) w).
Proof. reflexivity. Qed.

(** X11. Outside a running event loop and with no failure of the bus,
    [cog_unload] returns: every task has been asked to cancel, one
    unsubscribe request has been sent for each entry of [_channels], in
    their order, with one log line each, and [_channels] is empty. *)
Theorem cog_unload_unsubscribes_each w :
  loop_running w = false ->
  (forall k, (k < length (_channels w))%nat -> bus_planned k w = None) ->
  exists w',
    cog_unload w = (Return tt, w')
    /\ _channels w' = []
    /\ unsubscribed w' = (unsubscribed w ++ _channels w)%list
    /\ log_handler w' = (log_handler w ++ map unsubscribing (_channels w))%list
    /\ handlers w' = map cancel (handlers w)
    /\ env w' = env w
    /\ events w' = events w.
Proof.
  intros Hloop Hok. rewrite cog_unload_run.
  exact (unsubscribe_each_all (_channels w) (set_handlers (map cancel (handlers w)) w)
           eq_refl Hloop Hok).
Qed.

(** X12. When the bus fails on the unsubscribe request of a channel,
    [cog_unload] raises that failure with the tasks already asked to
    cancel: the channels before it have been unsubscribed and removed, and
    [_channels] still holds the failing channel and those after it, so that
    a later call takes up there. *)
Theorem cog_unload_stops_at_bus_failure w (done : list string) (channel : string)
    (rest : list string) (e : exn) :
  loop_running w = false ->
  _channels w = (done ++ channel :: rest)%list ->
  (forall k, (k < length done)%nat -> bus_planned k w = None) ->
  bus_planned (length done) w = Some e ->
  exists w',
    cog_unload w = (Raise e, w')
    /\ _channels w' = channel :: rest
    /\ unsubscribed w' = (unsubscribed w ++ done)%list
    /\ handlers w' = map cancel (handlers w).
Proof.
  intros Hloop Hch Hok Hfail. rewrite cog_unload_run, Hch.
  destruct (unsubscribe_each_stops done channel rest e
              (set_handlers (map cancel (handlers w)) w) Hch Hloop Hok Hfail)
    as (w' & Hrun & Hch' & Hun & _ & Hhs).
  exists w'. auto.
Qed.


End CogUnload.

Lemma cog_unload_unsubscribes_each_witness :
  exists w',
    cog_unload Sample.listening = (Return tt, w')
    /\ unsubscribed w' = ["DBLVote"; "ProposalCacheAdd"]
    /\ _channels w' = [].
Proof.
  edestruct (@cog_unload_unsubscribes_each pyval (list pyval) Sample.listening)
    as (w' & Hrun & Hch & Hun & _).
  - reflexivity.
  - intros k _. unfold bus_planned. cbn. now destruct k.
  - exists w'. split; [exact Hrun|]. split; [exact Hun | exact Hch].
Defined.

Lemma cog_unload_stops_at_bus_failure_witness :
  exists w',
    cog_unload Scenario.bus_fails_second = (Raise (RuntimeError "connection lost"), w')
    /\ _channels w' = ["ProposalCacheAdd"]
    /\ unsubscribed w' = ["DBLVote"].
Proof.
  edestruct (@cog_unload_stops_at_bus_failure pyval (list pyval)
               Scenario.bus_fails_second ["DBLVote"] "ProposalCacheAdd" [] (RuntimeError "connection lost"))
    as (w' & Hrun & Hch & Hun & _).
  - reflexivity.
  - reflexivity.
  - intros k Hk. cbn in Hk. assert (k = 0%nat) as -> by lia. reflexivity.
  - reflexivity.
  - exists w'. split; [exact Hrun|]. split; [exact Hch | exact Hun].
Defined.


(** ** A channel handler from subscription to shutdown *)

Section ChannelHandler.

Context {P E : Type} (json_loads : string -> option P).

Implicit Types (w : Cog P E) (function : callable P E) (delivered : list string).

(** The receive loop changes the state of the bot and the record of events,
    and nothing else of the cog. *)
Lemma receive_loop_changes_env_events function n delivered w :
  exists e' ev',
    snd (receive_loop json_loads function n delivered w) = set_events ev' (set_env e' w).
Proof.
  revert n w. induction delivered as [|raw delivered IH]; intros n w.
  - exists (env w), (events w). now destruct w.
  - rewrite receive_loop_cons.
    pose proof (take_message json_loads function n raw w) as Htake.
    destruct (json_loads raw) as [data|].
    + destruct Htake as (r & e' & ->). destruct r as [[]|e].
      * destruct (IH (S n)
          (set_events (events w ++ [Decoded n data; Invoked n data; Returned n])%list
             (set_env e' w))) as (e'' & ev'' & ->).
        now exists e'', ev''.
      * now do 2 eexists.
    + rewrite Htake. exists (env w), (events w). now destruct w.
Qed.

Lemma take_message_returns function n raw w data env' :
  json_loads raw = Some data ->
  run_handler function data (env w) = (Return tt, env') ->
  (get_json json_loads n raw ≫= invoke function n) w
  = (Return tt,
     set_events (events w ++ [Decoded n data; Invoked n data; Returned n])%list
       (set_env env' w)).
Proof.
  intros Hdata Hret. unfold get_json. rewrite Hdata.
  destruct w as [ch hs sub unsub lg lr bf e0 ev]. cbn in Hret.
  unfold invoke, emit, on_env, mbind, M_bind, bind, mret, M_ret, ret, modify; cbn.
  destruct function as [f|f]; cbn in *; rewrite Hret; cbn;
    unfold set_events, set_env; cbn; rewrite <- ?app_assoc; reflexivity.
Qed.

Lemma handle_all_cons function (data : P) (payloads : list P) (e : E) :
  handle_all function (data :: payloads) e
  = match run_handler function data e with
    | (Return _, e') => handle_all function payloads e'
    | (Raise x, e') => (Raise x, e')
    end.
Proof. reflexivity. Qed.

(** C3. For every delivery, the loop hands to the handler the payloads of
    the first [k] delivered messages, which are the messages it decoded, in
    the order of delivery and each exactly once: the state of the bot it
    leaves is the one that the calls of the handler on these payloads give,
    one after the other, each call starting in the state that the call
    before it left.  When the loop returns, [k] is all of the delivery and
    every call has returned.  When the loop raises, either message [k] does
    not decode, every call before it has returned and the error is the
    decoding error, or the call on the last of the [k] payloads has raised,
    after the calls before it have returned, and the error is the one of
    that call.  The record of events tells the same: one invocation per
    decoded message, at the positions [n], [n+1], ..., each between the
    decoding of its message and the decoding of the next, which comes only
    after the handler has returned. *)
Theorem receive_loop_in_delivery_order function n delivered w :
  exists r w' payloads tr,
    receive_loop json_loads function n delivered w = (r, w')
    /\ Forall2 (fun raw data => json_loads raw = Some data)
         (take (length payloads) delivered) payloads
    /\ match r with
       | Return _ =>
           length payloads = length delivered
           /\ handle_all function payloads (env w) = (Return tt, env w')
       | Raise x =>
           (exists raw,
              delivered !! length payloads = Some raw
              /\ json_loads raw = None
              /\ x = JSONDecodeError raw
              /\ handle_all function payloads (env w) = (Return tt, env w'))
           \/ (exists init data e0,
                 payloads = (init ++ [data])%list
                 /\ handle_all function init (env w) = (Return tt, e0)
                 /\ run_handler function data e0 = (Raise x, env w'))
       end
    /\ events w' = (events w ++ tr)%list
    /\ invocations tr = zip (seq n (length payloads)) payloads
    /\ decodes tr = invocations tr
    /\ one_at_a_time tr.
Proof.
  revert n w. induction delivered as [|raw delivered IH]; intros n w.
  - exists (Return tt), w, [], []. cbn. rewrite app_nil_r.
    repeat split; auto.
  - rewrite receive_loop_cons.
    destruct (json_loads raw) as [data|] eqn:Hraw.
    + destruct (run_handler function data (env w)) as [[[]|x] e'] eqn:Hcall.
      * rewrite (take_message_returns function n raw w data e' Hraw Hcall).
        destruct (IH (S n)
          (set_events (events w ++ [Decoded n data; Invoked n data; Returned n])%list
             (set_env e' w)))
          as (r & w' & payloads & tr & Hrun & Hpay & Hout & Hev & Hinv & Hdec & Hone).
        exists r, w', (data :: payloads),
          (Decoded n data :: Invoked n data :: Returned n :: tr).
        split; [exact Hrun|].
        split. { cbn [length take]. constructor; assumption. }
        split.
        { rewrite handle_all_cons, Hcall. destruct r as [[]|x].
          - destruct Hout as [Hlen Hall]. split; [cbn; now rewrite Hlen | exact Hall].
          - destruct Hout as [(bad & Hat & Hbad & Hx & Hall)
                             | (init & last & e0 & Hsplit & Hinit & Hlast)].
            + left. exists bad. repeat split; assumption.
            + right. exists (data :: init), last, e0.
              split; [now rewrite Hsplit|].
              split; [now rewrite handle_all_cons, Hcall | exact Hlast]. }
        split. { rewrite Hev. cbn. now rewrite <- app_assoc. }
        split.
        { change (invocations (Decoded n data :: Invoked n data :: Returned n :: tr))
            with ((n, data) :: invocations tr).
          now rewrite Hinv. }
        split.
        { change (invocations (Decoded n data :: Invoked n data :: Returned n :: tr))
            with ((n, data) :: invocations tr).
          change (decodes (Decoded n data :: Invoked n data :: Returned n :: tr))
            with ((n, data) :: decodes tr).
          now rewrite Hdec. }
        cbn. auto.
      * rewrite (take_message_raises json_loads function n raw w data x e' Hraw Hcall).
        exists (Raise x), (set_events (events w ++ [Decoded n data; Invoked n data])%list
                           (set_env e' w)), [data], [Decoded n data; Invoked n data].
        split; [reflexivity|].
        split. { cbn. repeat constructor. exact Hraw. }
        split. { right. exists [], data, (env w). repeat split. exact Hcall. }
        repeat split.
    + pose proof (take_message json_loads function n raw w) as Htake.
      rewrite Hraw in Htake. rewrite Htake.
      exists (Raise (JSONDecodeError raw)), w, [], []. cbn. rewrite app_nil_r.
      split; [reflexivity|]. split; [constructor|].
      split. { left. exists raw. repeat split. exact Hraw. }
      repeat split.
Qed.

(** X14. When every delivered message decodes and the handler never raises,
    the loop returns once the channel is closed, and the state of the bot is
    what the handler makes of the payloads, one after the other in the order
    of delivery, each handed over exactly once. *)
Theorem receive_loop_applies_all function (g : P -> E -> E)
    (payloads : list P) n delivered w :
  (forall data e, run_handler function data e = (Return tt, g data e)) ->
  Forall2 (fun raw data => json_loads raw = Some data) delivered payloads ->
  exists w',
    receive_loop json_loads function n delivered w = (Return tt, w')
    /\ env w' = foldl (fun e data => g data e) (env w) payloads
    /\ invocations (events w')
       = (invocations (events w) ++ zip (seq n (length payloads)) payloads)%list.
Proof.
  intros Hg Hall. revert n w.
  induction Hall as [|raw data delivered payloads Hraw _ IH]; intros n w.
  - exists w. cbn. now rewrite app_nil_r.
  - rewrite receive_loop_cons.
    rewrite (take_message_returns function n raw w data (g data (env w)) Hraw (Hg _ _)).
    destruct (IH (S n)
      (set_events (events w ++ [Decoded n data; Invoked n data; Returned n])%list
         (set_env (g data (env w)) w))) as (w' & Hrun & Henv & Hinv).
    exists w'. split; [exact Hrun|]. split; [exact Henv|].
    rewrite Hinv. cbn [events set_events length seq zip zip_with].
    unfold invocations at 1. rewrite omap_app. cbn. now rewrite <- app_assoc.
Qed.

(** What [channel_handler] does before its loop. *)
Lemma channel_handler_run (channel_name : string) function delivered w :
  let w0 :=
    set_bus_faults (tail (bus_faults w))
      (set_log_handler
         (log_handler w ++ [("Subscribing to Redis channel " ++ channel_name)%string])%list
         (set_channels (_channels w ++ [channel_name])%list w)) in
  channel_handler json_loads channel_name function delivered w
  = match bus_planned 0 w with
    | Some e => (Raise e, w0)
    | None =>
        receive_loop json_loads function 0 delivered
          (set_log_handler
             (log_handler w0
              ++ [("Looping to wait for messages to channel " ++ channel_name)%string])%list
             (set_subscribed (subscribed w ++ [channel_name])%list w0))
    end.
Proof.
  destruct w as [ch hs sub unsub lg lr bf e ev]. cbn zeta.
  rewrite bus_planned_head. unfold channel_handler.
  rewrite !bind_run. cbn. unfold subscribe, bus_request. cbn.
  destruct bf as [|[err|] bf]; reflexivity.
Qed.


(** X16. A handler whose channel has been closed and the shutdown of the cog
    make a round trip: when [channel_handler] has returned, outside a
    running loop and with no failure of the bus, [cog_unload] returns,
    [_channels] is empty again, and exactly one unsubscribe request has been
    sent for each channel that was registered, the one of this handler
    last; the state of the bot is as the handler left it. *)
Theorem channel_handler_then_unload (channel_name : string) function delivered w w1 :
  loop_running w = false ->
  (forall k, bus_planned k w = None) ->
  channel_handler json_loads channel_name function delivered w = (Return tt, w1) ->
  exists w2,
    cog_unload w1 = (Return tt, w2)
    /\ _channels w2 = []
    /\ unsubscribed w2 = (unsubscribed w ++ _channels w ++ [channel_name])%list
    /\ env w2 = env w1
    /\ events w2 = events w1.
Proof.
  intros Hloop Hok Hrun.
  rewrite channel_handler_run, (Hok 0%nat) in Hrun. cbn zeta in Hrun.
  match type of Hrun with
  | receive_loop _ _ _ _ ?w0 = _ =>
      destruct (receive_loop_changes_env_events function 0 delivered w0) as (e' & ev' & Hw1)
  end.
  rewrite Hrun in Hw1. cbn [snd] in Hw1. subst w1.
  rewrite cog_unload_run.
  edestruct (@unsubscribe_each_all P E)
    as (w2 & Hrun2 & Hch & Hun & _ & _ & Henv & Hev);
    [| | |exists w2; split; [exact Hrun2|]; split; [exact Hch|]; split; [exact Hun|];
          split; [exact Henv | exact Hev]].
  - reflexivity.
  - exact Hloop.
  - intros k _. specialize (Hok (S k)). unfold bus_planned in *. cbn.
    destruct (bus_faults w) as [|f fs]; [now destruct k | exact Hok].
Qed.

End ChannelHandler.

Lemma receive_loop_in_delivery_order_witness :
  exists w' payloads,
    receive_loop Sample.json_literal Sample.need_bool 0 ["true"; "null"; "false"]
      (Sample.cog [] [])
    = (Raise (KeyError "user_id"), w')
    /\ Forall2 (fun raw data => Sample.json_literal raw = Some data)
         (take (length payloads) ["true"; "null"; "false"]) payloads
    /\ ((exists raw,
           ["true"; "null"; "false"] !! length payloads = Some raw
           /\ Sample.json_literal raw = None
           /\ KeyError "user_id" = JSONDecodeError raw
           /\ handle_all Sample.need_bool payloads [] = (Return tt, env w'))
        \/ (exists init data e0,
              payloads = (init ++ [data])%list
              /\ handle_all Sample.need_bool init [] = (Return tt, e0)
              /\ run_handler Sample.need_bool data e0 = (Raise (KeyError "user_id"), env w')))
    /\ env w' = [PyBool true]
    /\ invocations (events w') = [(0%nat, PyBool true); (1%nat, PyNone)].
Proof.
  destruct (receive_loop_in_delivery_order Sample.json_literal Sample.need_bool 0
              ["true"; "null"; "false"] (Sample.cog [] []))
    as (r & w' & payloads & tr & Hrun & Hpay & Hout & _).
  assert (Hr : r = Raise (KeyError "user_id")) by (vm_compute in Hrun; congruence).
  subst r.
  exists w', payloads. split; [exact Hrun|]. split; [exact Hpay|]. split; [exact Hout|].
  vm_compute in Hrun. injection Hrun as <-. split; reflexivity.
Defined.

Lemma receive_loop_applies_all_witness :
  exists w',
    receive_loop Sample.json_literal Sample.keep 0 ["true"; "null"] Scenario.fresh_cog
    = (Return tt, w')
    /\ env w' = [PyBool true; PyNone].
Proof.
  edestruct (receive_loop_applies_all Sample.json_literal Sample.keep
               (fun data kept => (kept ++ [data])%list) [PyBool true; PyNone]
               0 ["true"; "null"] Scenario.fresh_cog)
    as (w' & Hrun & Henv & _).
  - intros data e. reflexivity.
  - repeat constructor.
  - exists w'. split; [exact Hrun | exact Henv].
Defined.


Lemma channel_handler_then_unload_witness :
  exists w1 w2,
    channel_handler Sample.json_literal "DBLVote" Sample.keep ["true"] Scenario.fresh_cog
    = (Return tt, w1)
    /\ cog_unload w1 = (Return tt, w2)
    /\ _channels w2 = []
    /\ unsubscribed w2 = ["DBLVote"]
    /\ env w2 = [PyBool true].
Proof.
  destruct (channel_handler Sample.json_literal "DBLVote" Sample.keep ["true"]
              Scenario.fresh_cog) as [r w1] eqn:Hrun.
  assert (Hr : r = Return tt) by (vm_compute in Hrun; congruence). subst r.
  edestruct (channel_handler_then_unload Sample.json_literal "DBLVote" Sample.keep
               ["true"] Scenario.fresh_cog w1) as (w2 & Hun & Hch & Hsent & Henv & _).
  - reflexivity.
  - intros k. unfold bus_planned. cbn. now destruct k.
  - exact Hrun.
  - exists w1, w2. split; [reflexivity|]. split; [exact Hun|]. split; [exact Hch|].
    split; [exact Hsent|]. rewrite Henv.
    vm_compute in Hrun. injection Hrun as <-. reflexivity.
Defined.

(** ** The route decorator [add_output_args] *)

Lemma wrapper_run func request (s : gmap string obj) :
  wrapper func request s
  = match func request s with
    | (Raise e, s1) => (Raise e, s1)
    | (Return (HTTPFound location), s1) =>
        (Return (HTTPFound location),
         if location_is location "/discord_oauth_login" then
           match s1 !! "redirect_on_login" with
           | None => <["redirect_on_login" := OStr (url request)]> s1
           | Some _ => s1
           end
         else s1)
    | (Return (Dict d), s1) =>
        if truthy (default ONone (s1 !! "redirect_on_login")) then
          (Return (HTTPFound (default ONone (s1 !! "redirect_on_login"))),
           delete "redirect_on_login" s1)
        else update_params d (delete "redirect_on_login" s1)
    | (Return r, s1) => (Return r, s1)
    end.
Proof.
  unfold wrapper. rewrite bind_run.
  destruct (func request s) as [[[location|d| |text]|e] s1]; try reflexivity.
  - rewrite bind_run. destruct (location_is location "/discord_oauth_login"); [|reflexivity].
    rewrite bind_run. cbn. destruct (s1 !! "redirect_on_login"); reflexivity.
  - unfold mbind, M_bind, bind, get, modify, mret, M_ret, ret. cbn -[update_params].
    destruct (truthy (default ONone (s1 !! "redirect_on_login"))); reflexivity.
Qed.

(** X17. What is not a dict goes through the decorator untouched: a redirect
    to another place than the login page, [None], or any other response is
    returned as it is, with the session as the handler left it, and an
    exception of the handler is raised as it is.  [None] in particular is
    never replaced by an empty dict. *)
Theorem wrapper_passes_through func request (s s1 : gmap string obj) :
  (forall e, func request s = (Raise e, s1) -> wrapper func request s = (Raise e, s1))
  /\ (forall r,
        func request s = (Return r, s1) ->
        (forall d, r <> Dict d) ->
        r <> HTTPFound (OStr "/discord_oauth_login") ->
        wrapper func request s = (Return r, s1)).
Proof.
  split.
  - intros e Hf. now rewrite wrapper_run, Hf.
  - intros r Hf Hdict Hlogin. rewrite wrapper_run, Hf.
    destruct r as [location|d| |text]; try reflexivity.
    + destruct location as [| | |path|]; try reflexivity.
      cbn. destruct (String.eqb_spec path "/discord_oauth_login") as [->|_];
        [now destruct Hlogin | reflexivity].
    + now destruct (Hdict d).
Qed.

Lemma wrapper_passes_through_witness :
  wrapper (returning NoneResult) (mkRequest "/about")
    (<["redirect_on_login" := OStr "/settings"]> ∅)
  = (Return NoneResult, <["redirect_on_login" := OStr "/settings"]> ∅).
Proof.
  apply (proj2 (wrapper_passes_through (returning NoneResult) (mkRequest "/about")
                  (<["redirect_on_login" := OStr "/settings"]> ∅)
                  (<["redirect_on_login" := OStr "/settings"]> ∅)) NoneResult).
  - reflexivity.
  - discriminate.
  - discriminate.
Defined.

(** X18. A redirect to the login page makes the decorator remember where the
    visitor was: the URL of the request goes into the session under
    [redirect_on_login], unless an entry is there already, which is kept;
    the rest of the session and the redirect itself are unchanged. *)
Theorem wrapper_remembers_first_page func request (s s1 : gmap string obj) :
  func request s = (Return (HTTPFound (OStr "/discord_oauth_login")), s1) ->
  exists s2,
    wrapper func request s = (Return (HTTPFound (OStr "/discord_oauth_login")), s2)
    /\ s2 !! "redirect_on_login"
       = Some (default (OStr (url request)) (s1 !! "redirect_on_login"))
    /\ (forall k, k <> "redirect_on_login" -> s2 !! k = s1 !! k).
Proof.
  intros Hf. rewrite wrapper_run, Hf. cbn.
  destruct (s1 !! "redirect_on_login") as [o|] eqn:Hs; eexists; (split; [reflexivity|]).
  - split; [exact Hs | reflexivity].
  - split; [apply lookup_insert_eq | intros k Hk; now apply lookup_insert_ne].
Qed.

Lemma wrapper_remembers_first_page_witness :
  exists s2,
    wrapper (returning (HTTPFound (OStr "/discord_oauth_login"))) (mkRequest "/settings") ∅
    = (Return (HTTPFound (OStr "/discord_oauth_login")), s2)
    /\ s2 !! "redirect_on_login" = Some (OStr "/settings").
Proof.
  destruct (wrapper_remembers_first_page
              (returning (HTTPFound (OStr "/discord_oauth_login")))
              (mkRequest "/settings") ∅ ∅ eq_refl) as (s2 & Hrun & Hkey & _).
  exists s2. split; [exact Hrun | exact Hkey].
Defined.

(** X19. The remembered page is used once.  After a redirect to the login
    page from a request with a non-empty URL, on a session with no pending
    redirect, the next page that would render a dict is replaced by a
    redirect to that URL and the entry leaves the session, which is then
    what it was at the start; the page after that is rendered. *)
Theorem login_redirect_round_trip (request1 request2 request3 : Request)
    (d : gmap string tval) (s : gmap string obj) :
  s !! "redirect_on_login" = None ->
  url request1 <> "" ->
  exists s1,
    wrapper (returning (HTTPFound (OStr "/discord_oauth_login"))) request1 s
    = (Return (HTTPFound (OStr "/discord_oauth_login")), s1)
    /\ wrapper (returning (Dict d)) request2 s1
       = (Return (HTTPFound (OStr (url request1))), s)
    /\ wrapper (returning (Dict d)) request3 s = update_params d s.
Proof.
  intros Hs Hurl. eexists. split; [|split].
  - rewrite wrapper_run. cbn. rewrite Hs. reflexivity.
  - rewrite wrapper_run. cbn. rewrite lookup_insert_eq. cbn.
    destruct (String.eqb_spec (url request1) "") as [Hnil|_]; [now destruct Hurl|].
    cbn. now rewrite delete_insert_id.
  - rewrite wrapper_run. cbn. rewrite Hs. cbn. now rewrite delete_id.
Qed.

Lemma login_redirect_round_trip_witness :
  exists s1,
    wrapper (returning (HTTPFound (OStr "/discord_oauth_login"))) (mkRequest "/settings") ∅
    = (Return (HTTPFound (OStr "/discord_oauth_login")), s1)
    /\ wrapper (returning (Dict ∅)) (mkRequest "/") s1
       = (Return (HTTPFound (OStr "/settings")), ∅).
Proof.
  edestruct (login_redirect_round_trip (mkRequest "/settings") (mkRequest "/")
               (mkRequest "/") ∅ ∅) as (s1 & Hlogin & Hback & _).
  - reflexivity.
  - discriminate.
  - exists s1. split; [exact Hlogin | exact Hback].
Defined.

Lemma lookup_setdefault (key value k : string) (og : gmap string obj) :
  setdefault key value og !! k
  = if decide (key = k) then Some (default (OStr value) (og !! key)) else og !! k.
Proof. unfold setdefault. apply lookup_insert. Qed.

(** The five assignments to [og_data] amount to completing the dict with the
    defaults, the entries that are there winning. *)
Lemma setdefaults_union (og : gmap string obj) :
  setdefault "og:locale" og_locale
    (setdefault "og:image" og_image
       (setdefault "og:type" og_type
          (setdefault "og:description" og_description
             (setdefault "og:title" og_title og))))
  = og ∪ og_defaults.
Proof.
  apply map_eq. intros k. rewrite lookup_union, !lookup_setdefault.
  unfold og_defaults. rewrite !lookup_insert, lookup_empty.
  repeat (case_decide; subst; cbn;
          [try (rewrite !lookup_setdefault; cbn);
           match goal with |- context [og !! ?key] => now destruct (og !! key) end|]).
  now destruct (og !! k).
Qed.

Lemma prepared_lookup (d : gmap string tval) (s : gmap string obj) (k : string) :
  prepared d s !! k
  = if decide (k = "opengraph") then Some (default (Val (ODict ∅)) (d !! "opengraph"))
    else if decide (k = "request") then Some (default TheRequest (d !! "request"))
    else if decide (k = "user_info")
         then Some (default (Val (default ONone (s !! "user_info"))) (d !! "user_info"))
    else if decide (k = "session") then Some TheSession
    else d !! k.
Proof.
  unfold prepared. cbn zeta.
  rewrite (lookup_insert_ne d "session" "user_info") by discriminate.
  set (d1 := match d !! "user_info" with
             | Some _ => <["session" := TheSession]> d
             | None => <["user_info" := Val (default ONone (s !! "user_info"))]>
                         (<["session" := TheSession]> d)
             end).
  assert (H1 : forall k, d1 !! k
             = if decide (k = "user_info")
               then Some (default (Val (default ONone (s !! "user_info"))) (d !! "user_info"))
               else if decide (k = "session") then Some TheSession else d !! k).
  { intros j. subst d1. destruct (decide (j = "user_info")) as [->|Hu].
    - destruct (d !! "user_info") as [u|] eqn:Hd.
      + rewrite lookup_insert_ne by discriminate. exact Hd.
      + apply lookup_insert_eq.
    - destruct (decide (j = "session")) as [->|Hs];
        destruct (d !! "user_info") as [u|];
        rewrite ?(lookup_insert_ne _ "user_info") by congruence;
        [apply lookup_insert_eq | apply lookup_insert_eq
        |now apply lookup_insert_ne | now apply lookup_insert_ne]. }
  set (d2 := match d1 !! "request" with
             | Some _ => d1
             | None => <["request" := TheRequest]> d1
             end).
  assert (H2 : forall k, d2 !! k
             = if decide (k = "request") then Some (default TheRequest (d !! "request"))
               else d1 !! k).
  { assert (Hreq : d1 !! "request" = d !! "request") by (now rewrite H1).
    intros j. subst d2. rewrite Hreq.
    destruct (d !! "request") as [r|] eqn:Hr;
      destruct (decide (j = "request")) as [->|Hj]; cbn.
    - now rewrite Hreq.
    - reflexivity.
    - apply lookup_insert_eq.
    - now apply lookup_insert_ne. }
  assert (Hd2 : d2 !! "opengraph" = d !! "opengraph") by (now rewrite H2, H1).
  rewrite Hd2.
  destruct (decide (k = "opengraph")) as [->|Hk].
  - destruct (d !! "opengraph") as [o|] eqn:Ho; cbn.
    + now rewrite Hd2.
    + apply lookup_insert_eq.
  - destruct (d !! "opengraph") as [o|];
      rewrite ?(lookup_insert_ne _ "opengraph") by congruence; now rewrite H2, H1.
Qed.

Lemma update_params_run (d : gmap string tval) (s : gmap string obj) :
  update_params d s
  = match prepared d s !! "opengraph" with
    | Some (Val (ODict og)) =>
        (Return (Dict (<["opengraph" := Val (ODict (og ∪ og_defaults))]> (prepared d s))), s)
    | _ => (Raise (AttributeError "object has no attribute 'copy'"), s)
    end.
Proof.
  unfold update_params. rewrite bind_run. cbn -[setdefault].
  fold (prepared d s).
  destruct (prepared d s !! "opengraph") as [[[| | | |og]| |]|]; try reflexivity.
  now rewrite setdefaults_union.
Qed.

(** X20. A dict without pending redirect comes back completed.  When its
    [opengraph] entry is a dict or is missing, the result holds the session
    under [session] whatever was there, the handler's own [user_info] and
    [request] if it gave any and else those of the session (or [None]) and of
    the request, an [opengraph] dict in which the handler's entries stand and
    the five defaults fill what is missing, and every other entry as the
    handler gave it; the session is not changed. *)
Theorem update_params_completes (d : gmap string tval) (s og : gmap string obj) :
  d !! "opengraph" = Some (Val (ODict og)) \/ (d !! "opengraph" = None /\ og = ∅) ->
  exists d',
    update_params d s = (Return (Dict d'), s)
    /\ d' !! "session" = Some TheSession
    /\ d' !! "user_info"
       = Some (default (Val (default ONone (s !! "user_info"))) (d !! "user_info"))
    /\ d' !! "request" = Some (default TheRequest (d !! "request"))
    /\ d' !! "opengraph" = Some (Val (ODict (og ∪ og_defaults)))
    /\ (forall k,
          k <> "session" -> k <> "user_info" -> k <> "request" -> k <> "opengraph" ->
          d' !! k = d !! k).
Proof.
  intros Hog. rewrite update_params_run.
  assert (Hp : prepared d s !! "opengraph" = Some (Val (ODict og))).
  { rewrite prepared_lookup. cbn. destruct Hog as [-> | [-> ->]]; reflexivity. }
  rewrite Hp. eexists. split; [reflexivity|].
  split. { now rewrite lookup_insert_ne, prepared_lookup by discriminate. }
  split. { now rewrite lookup_insert_ne, prepared_lookup by discriminate. }
  split. { now rewrite lookup_insert_ne, prepared_lookup by discriminate. }
  split. { apply lookup_insert_eq. }
  intros k Hs Hu Hr Ho.
  rewrite lookup_insert_ne, prepared_lookup by congruence.
  repeat case_decide; congruence.
Qed.

Lemma update_params_completes_witness :
  exists d' og,
    update_params (<["opengraph" := Val (ODict (<["og:title" := OStr "Family"]> ∅))]> ∅) ∅
    = (Return (Dict d'), ∅)
    /\ d' !! "opengraph" = Some (Val (ODict og))
    /\ og !! "og:title" = Some (OStr "Family")
    /\ og !! "og:type" = Some (OStr "website")
    /\ d' !! "user_info" = Some (Val ONone).
Proof.
  edestruct (update_params_completes
               (<["opengraph" := Val (ODict (<["og:title" := OStr "Family"]> ∅))]> ∅) ∅
               (<["og:title" := OStr "Family"]> ∅))
    as (d' & Hrun & _ & Huser & _ & Hog & _).
  - left. reflexivity.
  - exists d'. eexists. split; [exact Hrun|]. split; [exact Hog|].
    split; [reflexivity|]. split; [reflexivity | exact Huser].
Defined.

(** X21. An [opengraph] entry that is not a dict makes the decorator fail:
    when the handler returns a dict with such an entry and no redirect is
    pending, [wrapper] raises [AttributeError], the session being what the
    handler left without [redirect_on_login]. *)
Theorem wrapper_opengraph_not_dict func request (s s1 : gmap string obj)
    (d : gmap string tval) (v : tval) :
  func request s = (Return (Dict d), s1) ->
  truthy (default ONone (s1 !! "redirect_on_login")) = false ->
  d !! "opengraph" = Some v ->
  (forall og, v <> Val (ODict og)) ->
  exists msg,
    wrapper func request s = (Raise (AttributeError msg), delete "redirect_on_login" s1).
Proof.
  intros Hf Hpending Hv Hnot. rewrite wrapper_run, Hf, Hpending, update_params_run.
  rewrite prepared_lookup. cbn. rewrite Hv. cbn.
  destruct v as [[| | | |og]| |]; try (eexists; reflexivity).
  now destruct (Hnot og).
Qed.

Lemma wrapper_opengraph_not_dict_witness :
  exists msg,
    wrapper (returning (Dict (<["opengraph" := Val (OStr "Family")]> ∅))) (mkRequest "/") ∅
    = (Raise (AttributeError msg), ∅).
Proof.
  edestruct (wrapper_opengraph_not_dict
               (returning (Dict (<["opengraph" := Val (OStr "Family")]> ∅)))
               (mkRequest "/") ∅ ∅) as (msg & Hrun).
  - reflexivity.
  - reflexivity.
  - reflexivity.
  - discriminate.
  - exists msg. exact Hrun.
Defined.

Lemma prepared_completed (d : gmap string tval) (s og : gmap string obj) :
  prepared d s !! "opengraph" = Some (Val (ODict og)) ->
  prepared (<["opengraph" := Val (ODict (og ∪ og_defaults))]> (prepared d s)) s
  = <["opengraph" := Val (ODict (og ∪ og_defaults))]> (prepared d s).
Proof.
  intros Hog. apply map_eq. intros k. rewrite prepared_lookup.
  destruct (decide (k = "opengraph")) as [->|Ho].
  { now rewrite !lookup_insert_eq. }
  rewrite !(lookup_insert_ne _ "opengraph") by congruence.
  rewrite !prepared_lookup. cbn.
  repeat (case_decide; [subst; cbn; reflexivity|]).
  reflexivity.
Qed.

Lemma update_params_again (d : gmap string tval) (s og : gmap string obj) :
  prepared d s !! "opengraph" = Some (Val (ODict og)) ->
  update_params (<["opengraph" := Val (ODict (og ∪ og_defaults))]> (prepared d s)) s
  = (Return (Dict (<["opengraph" := Val (ODict (og ∪ og_defaults))]> (prepared d s))), s).
Proof.
  intros Hog. rewrite update_params_run, (prepared_completed d s og Hog).
  rewrite lookup_insert_eq, insert_insert_eq.
  rewrite <- (assoc_L (∪)), (idemp_L (∪) og_defaults). reflexivity.
Qed.

Lemma location_is_default (x : option obj) (path : string) :
  x <> Some (OStr path) -> location_is (default ONone x) path = false.
Proof.
  destruct x as [[| | |p|]|]; cbn; try reflexivity.
  intros Hne. destruct (String.eqb_spec p path) as [->|_]; [now destruct Hne | reflexivity].
Qed.

(** X22. Decorating a handler twice is decorating it once.  For every
    handler, request and session, provided the page remembered in the
    session that the handler leaves is not the login page itself,
    [add_output_args] applied a second time returns or raises the same and
    leaves the same session. *)
Theorem add_output_args_idempotent func request (s : gmap string obj) :
  snd (func request s) !! "redirect_on_login" <> Some (OStr "/discord_oauth_login") ->
  add_output_args tt (add_output_args tt func) request s
  = add_output_args tt func request s.
Proof.
  unfold add_output_args, inner_wrapper. intros Hpending.
  rewrite (wrapper_run (wrapper func)), (wrapper_run func).
  destruct (func request s) as [[[location|d| |text]|e] s1]; cbn [snd] in Hpending;
    try reflexivity.
  - destruct (location_is location "/discord_oauth_login") eqn:Hloc; [|reflexivity].
    destruct (s1 !! "redirect_on_login") as [o|] eqn:Hs.
    + now rewrite Hs.
    + now rewrite lookup_insert_eq.
  - destruct (truthy (default ONone (s1 !! "redirect_on_login"))) eqn:Htruthy.
    + now rewrite (location_is_default _ _ Hpending).
    + rewrite update_params_run.
      destruct (prepared d (delete "redirect_on_login" s1) !! "opengraph")
        as [[[| | | |og]| |]|] eqn:Hog; try reflexivity.
      rewrite lookup_delete_eq. cbn. rewrite delete_delete_eq.
      exact (update_params_again d _ og Hog).
Qed.

Lemma add_output_args_idempotent_witness :
  add_output_args tt (add_output_args tt (returning (Dict ∅))) (mkRequest "/")
    (<["redirect_on_login" := OStr "/settings"]> ∅)
  = (Return (HTTPFound (OStr "/settings")), ∅).
Proof.
  rewrite (add_output_args_idempotent (returning (Dict ∅)) (mkRequest "/")
             (<["redirect_on_login" := OStr "/settings"]> ∅)).
  - reflexivity.
  - cbn. rewrite lookup_insert_eq. discriminate.
Defined.
